(** * llm-cmd: context collection, prompt assembly, fence stripping and
    interactive execution (src/llm_cmd.py), embedded in Rocq.

    A Python [str] is a sequence of Unicode code points; it is modelled as a
    list of [N].  The Python built-ins the module relies on ([str.strip],
    [str.splitlines], [str.startswith], [str.join], indexing and slicing,
    [bytes.decode], [collections.deque], text-mode file iteration) are
    modelled in [Module Py] after their CPython behaviour; the functions of
    llm_cmd.py follow, under their own names.

    What lies outside the module is a parameter of the model: the process
    environment, [os.path.expanduser], the file system and the locale's
    text encoding ([OS]); the user at the editable prompt, the shell and the
    encoding of standard output ([Session]).  The interpreter is a 64-bit
    build (a C [ssize_t] has 64 bits). *)

From Stdlib Require Import ZArith NArith List Ascii String DecimalString Lia.
From stdpp Require Import base option list countable gmap.
Import ListNotations.

Local Open Scope list_scope.
Local Open Scope N_scope.

(** ** Python values *)

Abbreviation str := (list N).
Abbreviation bytes := (list Byte.byte).

(** A Rocq string literal read as a Python [str] (one code point per
    character of the literal). *)
Definition py (s : string) : str := map N_of_ascii (list_ascii_of_string s).

Definition TAB : N := 9.
Definition LF : N := 10.
Definition CR : N := 13.
Definition SP : N := 32.

(** Exceptions raised by the modelled code. *)
Inductive exn : Type :=
| IndexError
| ValueError (msg : string)
| OSError (errno : Z)
| UnicodeDecodeError
| UnicodeEncodeError
| OverflowError
| KeyboardInterrupt
| EOFError
| CalledProcessError (returncode : Z) (output : bytes).

(** A computation that may raise. *)
Inductive result (A : Type) : Type :=
| Ok (a : A)
| Raise (e : exn).
Arguments Ok {A} a.
Arguments Raise {A} e.

#[global] Instance result_ret : MRet result := @Ok.
#[global] Instance result_bind : MBind result :=
  λ A B f m, match m with Ok a => f a | Raise e => Raise e end.
#[global] Instance result_fmap : FMap result :=
  λ A B f m, match m with Ok a => Ok (f a) | Raise e => Raise e end.

Module Py.

(** [str.isspace] on one code point (Py_UNICODE_ISSPACE). *)
Definition isspace (c : N) : bool :=
  ((9 <=? c) && (c <=? 13)) || ((28 <=? c) && (c <=? 32))
  || (c =? 133) || (c =? 160) || (c =? 5760)
  || ((8192 <=? c) && (c <=? 8202))
  || (c =? 8232) || (c =? 8233) || (c =? 8239) || (c =? 8287)
  || (c =? 12288).

(** Line boundaries of [str.splitlines] (Py_UNICODE_ISLINEBREAK). *)
Definition is_linebreak (c : N) : bool :=
  ((10 <=? c) && (c <=? 13)) || ((28 <=? c) && (c <=? 30))
  || (c =? 133) || (c =? 8232) || (c =? 8233).

(** [s.lstrip()], [s.rstrip()], [s.strip()]. *)
Fixpoint lstrip (s : str) : str :=
  match s with
  | c :: s' => if isspace c then lstrip s' else s
  | [] => []
  end.

Fixpoint rstrip (s : str) : str :=
  match s with
  | c :: s' =>
      match rstrip s' with
      | [] => if isspace c then [] else [c]
      | r => c :: r
      end
  | [] => []
  end.

Definition strip (s : str) : str := lstrip (rstrip s).

(** [s.startswith(prefix)]. *)
Fixpoint startswith (s prefix : str) {struct prefix} : bool :=
  match prefix, s with
  | [], _ => true
  | p :: prefix', c :: s' => (c =? p) && startswith s' prefix'
  | _ :: _, [] => false
  end.

(** [c in s] for a single character [c]. *)
Definition contains (c : N) (s : str) : bool := existsb (N.eqb c) s.

(** [s.splitlines()]: the lines of [s] without their terminators; "\r\n"
    is one terminator; a terminator at the very end opens no further
    line. *)
Fixpoint splitlines (s : str) : list str :=
  match s with
  | [] => []
  | c :: rest =>
      if is_linebreak c then
        [] :: (if c =? CR
               then match rest with
                    | c' :: rest' =>
                        if c' =? LF then splitlines rest' else splitlines rest
                    | [] => splitlines rest
                    end
               else splitlines rest)
      else match splitlines rest with
           | [] => [[c]]
           | l :: ls => (c :: l) :: ls
           end
  end.

(** [sep.join(l)]. *)
Fixpoint join (sep : str) (l : list str) : str :=
  match l with
  | [] => []
  | [x] => x
  | x :: xs => x ++ sep ++ join sep xs
  end.

(** [bool(l)] for a list. *)
Definition truthy {A} (l : list A) : bool :=
  match l with [] => false | _ :: _ => true end.

(** [x or ...] for an optional string [x]: the value of [x] when it is
    truthy (neither [None] nor empty). *)
Definition truthy_value (x : option str) : option str :=
  match x with
  | Some s => if truthy s then Some s else None
  | None => None
  end.

(** [l[i]]: a negative index counts from the end; out of range raises. *)
Definition getitem {A} (l : list A) (i : Z) : result A :=
  let n := Z.of_nat (length l) in
  let i := if (i <? 0)%Z then (i + n)%Z else i in
  if ((i <? 0) || (n <=? i))%Z then Raise IndexError
  else match l !! Z.to_nat i with
       | Some x => Ok x
       | None => Raise IndexError
       end.

(** Index adjustment of a slice bound (PySlice_AdjustIndices, step 1). *)
Definition adjust (n i : Z) : Z :=
  if (i <? 0)%Z then (if (i + n <? 0)%Z then 0 else i + n)%Z
  else if (n <=? i)%Z then n else i.

(** [l[start:stop]]. *)
Definition getslice {A} (l : list A) (start stop : Z) : list A :=
  let n := Z.of_nat (length l) in
  let a := adjust n start in
  let b := adjust n stop in
  take (Z.to_nat (b - a)) (drop (Z.to_nat a) l).

(** [str(i)] / the "{i}" field of an f-string for an int. *)
Definition str_of_int (i : Z) : str :=
  py (NilZero.string_of_int (Z.to_int i)).

(** [b.decode()]: strict UTF-8.  A byte sequence that is not well-formed
    UTF-8 (a stray or missing continuation byte, an overlong form, a
    surrogate, a value above U+10FFFF) has no decoding, and [decode]
    raises. *)
Definition within (lo hi b : N) : bool := (lo <=? b) && (b <=? hi).

Fixpoint decode_utf8 (bs : list N) : option str :=
  match bs with
  | [] => Some []
  | b0 :: r0 =>
      if b0 <? 128 then cons b0 <$> decode_utf8 r0
      else if within 194 223 b0 then
        match r0 with
        | b1 :: r1 =>
            if within 128 191 b1
            then cons ((b0 - 192) * 64 + (b1 - 128)) <$> decode_utf8 r1
            else None
        | _ => None
        end
      else if within 224 239 b0 then
        match r0 with
        | b1 :: b2 :: r2 =>
            if within (if b0 =? 224 then 160 else 128)
                      (if b0 =? 237 then 159 else 191) b1
               && within 128 191 b2
            then cons ((b0 - 224) * 4096 + (b1 - 128) * 64 + (b2 - 128))
                   <$> decode_utf8 r2
            else None
        | _ => None
        end
      else if within 240 244 b0 then
        match r0 with
        | b1 :: b2 :: b3 :: r3 =>
            if within (if b0 =? 240 then 144 else 128)
                      (if b0 =? 244 then 143 else 191) b1
               && within 128 191 b2 && within 128 191 b3
            then cons ((b0 - 240) * 262144 + (b1 - 128) * 4096
                       + (b2 - 128) * 64 + (b3 - 128))
                   <$> decode_utf8 r3
            else None
        | _ => None
        end
      else None
  end.

Definition decode (b : bytes) : result str :=
  match decode_utf8 (map Byte.to_N b) with
  | Some text => Ok text
  | None => Raise UnicodeDecodeError
  end.

(** Text-mode reading with universal newlines (the default of
    [open(path, "r")]): "\r\n" and a lone "\r" are read as "\n". *)
Fixpoint universal_newlines (s : str) : str :=
  match s with
  | [] => []
  | c :: rest =>
      if c =? CR then
        LF :: match rest with
              | c' :: rest' =>
                  if c' =? LF then universal_newlines rest'
                  else universal_newlines rest
              | [] => universal_newlines rest
              end
      else c :: universal_newlines rest
  end.

(** The lines read from a text, each with its terminating "\n" (the last
    one may lack it). *)
Fixpoint keepends (s : str) : list str :=
  match s with
  | [] => []
  | c :: rest =>
      if c =? LF then [c] :: keepends rest
      else match keepends rest with
           | [] => [[c]]
           | l :: ls => (c :: l) :: ls
           end
  end.

(** Iterating over a file object opened in text mode. *)
Definition iter_file (contents : str) : list str :=
  keepends (universal_newlines contents).

(** [d.append(x)] on a deque bounded by [maxlen]: append on the right,
    then drop from the left when the bound is exceeded. *)
Definition deque_append {A} (maxlen : nat) (d : list A) (x : A) : list A :=
  let d' := d ++ [x] in
  if (maxlen <? length d')%nat then tl d' else d'.

(** The largest C [ssize_t]. *)
Definition SSIZE_MAX : Z := 2 ^ 63 - 1.

(** [deque(iterable, maxlen=n)] for an int [n]: [n] is converted to a C
    [ssize_t] (it must fit), must not be negative, and only then is the
    iterable consumed; the iteration itself may raise. *)
Definition deque {A} (iterable : result (list A)) (maxlen : Z)
  : result (list A) :=
  if ((maxlen <? - SSIZE_MAX - 1) || (SSIZE_MAX <? maxlen))%Z
  then Raise OverflowError
  else if (maxlen <? 0)%Z
  then Raise (ValueError "maxlen must be non-negative")
  else items ← iterable;
       Ok (fold_left (deque_append (Z.to_nat maxlen)) items []).

End Py.

(** ** The process environment

    What the module reads from outside: [os.environ], [os.path.expanduser],
    the files that [open(path, "r")] can or cannot open, given by their
    bytes, and the strict decoding of bytes in the locale's encoding, which
    a file opened in text mode applies to what is read from it ([None] for
    bytes that are not valid in that encoding). *)
Record OS : Type := {
  environ : gmap str str;
  expanduser : str → str;
  open_r : str → result bytes;
  decode_text : bytes → option str;
}.

(** ** The terminal and the shell

    What [interactive_exec] talks to: the editable prompt of prompt_toolkit
    (the user's answer, or the exception of an aborted edit) and the shell
    behind [subprocess.check_output(..., shell=True, stderr=STDOUT)] (a
    failure to launch, or the exit status with the combined output); and
    standard output, by the texts that its encoding can encode.  That
    encoding can encode ASCII text, as the encodings of a terminal do. *)
Record Session : Type := {
  ask : str → str → bool → result str;
  run : str → result (Z * bytes);
  stdout_encodes : str → bool;
  stdout_ascii :
    ∀ text, forallb (λ c, c <? 128) text = true → stdout_encodes text = true;
}.

(** What the process does, in order. *)
Inductive event : Type :=
| Printed (text : str)
| Prompted (message default : str) (multiline : bool) (answer : result str)
| Executed (command : str) (outcome : result (Z * bytes)).

(** Effectful code: the log of events so far is threaded through, and the
    outcome is a value or an exception. *)
Definition IO (A : Type) : Type := list event → list event * result A.

#[global] Instance IO_ret : MRet IO := λ A a log, (log, Ok a).
#[global] Instance IO_bind : MBind IO :=
  λ A B f m log,
    match m log with
    | (log', Ok a) => f a log'
    | (log', Raise e) => (log', Raise e)
    end.

Module Sys.

(** [print(text)]: the text and a newline go to standard output; a text
    that the encoding of standard output cannot encode raises, and nothing
    is written. *)
Definition print (ui : Session) (text : str) : IO unit :=
  λ log,
    if stdout_encodes ui text
    then (log ++ [Printed (text ++ [LF])], Ok ())
    else (log, Raise UnicodeEncodeError).

(** Iterating over the file object that [open(path, "r")] returned: the
    bytes are decoded, and the lines of the text are read. *)
Definition iter_text (os : OS) (f : bytes) : result (list str) :=
  match decode_text os f with
  | Some text => Ok (Py.iter_file text)
  | None => Raise UnicodeDecodeError
  end.

(** [prompt(message, default=default, lexer=..., multiline=multiline)];
    the lexer only colours the input. *)
Definition prompt (ui : Session) (message default : str) (multiline : bool)
  : IO str :=
  λ log,
    let answer := ask ui message default multiline in
    (log ++ [Prompted message default multiline answer], answer).

(** [subprocess.check_output(cmd, shell=True, stderr=subprocess.STDOUT)]:
    the output on exit status 0, [CalledProcessError] otherwise. *)
Definition check_output (ui : Session) (cmd : str) : IO bytes :=
  λ log,
    let outcome := run ui cmd in
    (log ++ [Executed cmd outcome],
     match outcome with
     | Ok (returncode, output) =>
         if (returncode =? 0)%Z then Ok output
         else Raise (CalledProcessError returncode output)
     | Raise e => Raise e
     end).

(** A computation without effects. *)
Definition lift {A} (r : result A) : IO A := λ log, (log, r).

(** [try: body except ...: handler]; the handler is [None] for the
    exceptions that no [except] clause matches. *)
Definition try_except {A} (body : IO A) (handler : exn → option (IO A))
  : IO A :=
  λ log,
    match body log with
    | (log', Ok a) => (log', Ok a)
    | (log', Raise e) =>
        match handler e with
        | Some h => h log'
        | None => (log', Raise e)
        end
    end.

End Sys.

(** ** The llm library

    The model registry and the model call, as [cmd] uses them: a model
    object carries [needs_key], [key_env_var] and the [key] attribute that
    [cmd] sets; [prompt_text] is [str(model_obj.prompt(prompt, system=...))],
    the text of the reply or the exception of a failed request. *)
Record Model : Type := {
  needs_key : option str;
  key_env_var : option str;
  key : option str;
}.

Record LLM : Type := {
  get_default_model : result str;
  get_model : str → result Model;
  get_key : option str → str → option str → result (option str);
  prompt_text : Model → str → str → result str;
}.

(** ** llm_cmd.py *)

Module llm_cmd.

(** [SYSTEM_PROMPT], lines 12-33. *)
Definition SYSTEM_PROMPT : str :=
  Py.strip
    ([LF]
     ++ Py.join [LF]
          [py "Please return a valid bash command. I will supply some environment variables (# env), ";
           py "a shell history context (# history) and a user instruction (# now:) like:";
           py "# env";
           py "USER=someuser";
           py "SHELL=bash";
           py "PWD=/home/someuser/tmp";
           py "# history 3";
           py "ls -lah";
           py "cd ~/tmp";
           py "touch somefile";
           py "# now: undo last git commit";
           py "";
           py "You should return only a valid bash command to be executed as a raw string, no example output,";
           py "no string delimiters, no wrapping it, no yapping, no markdown, no fenced code blocks, ";
           py "do not wrap output in ```.";
           py "What you return will be passed to Python subprocess.check_output() directly.";
           py "";
           py "For example, if the user asks: ### now: undo last git commit";
           py "";
           py "You return only: git reset --soft HEAD~1"]
     ++ [LF]).

Definition ENV_VARS_CONTEXT : list str :=
  [py "SHELL"; py "USER"; py "HOME"; py "PWD"].
Definition N_SHELL_HISTORY_LINES : Z := 3.

(** [tail(filename, n)], lines 65-69. *)
Definition tail (os : OS) (filename : str) (n : Z) : result (list str) :=
  f ← open_r os filename;
  lines ← Py.deque (Sys.iter_text os f) n;
  mret lines.

(** [shell_history_context(n, history_file)], lines 72-90;
    [history_file = None] is the omitted argument. *)
Definition shell_history_context
    (os : OS) (n : Z) (history_file : option str) : result (list str) :=
  let history_file :=
    match history_file with
    | None => default (py "~/.bash_history") (environ os !! py "HISTFILE")
    | Some path => path
    end in
  let history_file := expanduser os history_file in
  lines ← tail os history_file n;
  mret (map Py.strip lines).

(** [clean_codeblock(text)], lines 93-103. *)
Definition clean_codeblock (text : str) : result str :=
  let lines := Py.splitlines text in
  fenced ←
    (if Py.truthy lines then
       first ← Py.getitem lines 0;
       if Py.startswith first (py "```") then
         last ← Py.getitem lines (-1);
         mret (Py.startswith last (py "```"))
       else mret false
     else mret false);
  let lines := if (fenced : bool) then Py.getslice lines 1 (-1) else lines in
  mret (Py.join [LF] lines).

(** [env_var_context(env_vars)], lines 106-117: the loop appends to
    [env_var_values] for every name found in [os.environ]. *)
Definition env_var_context (os : OS) (env_vars : list str) : list str :=
  fold_left
    (λ env_var_values var,
       match environ os !! var with
       | Some value => env_var_values ++ [var ++ py "=" ++ Py.strip value]
       | None => env_var_values
       end)
    env_vars [].

(** [generate_context_prompt(user_prompt)], lines 120-124. *)
Definition generate_context_prompt (os : OS) (user_prompt : str) : result str :=
  let env_vars := Py.join [LF] (env_var_context os ENV_VARS_CONTEXT) in
  history ← shell_history_context os N_SHELL_HISTORY_LINES None;
  let shell_history := Py.join [LF] history in
  let prompt :=
    Py.strip (py "# env" ++ [LF] ++ env_vars ++ [LF]
              ++ py "# history " ++ Py.str_of_int N_SHELL_HISTORY_LINES ++ [LF]
              ++ shell_history ++ [LF]
              ++ py "# now: " ++ user_prompt) in
  mret prompt.

(** [interactive_exec(command)], lines 127-143. *)
Definition interactive_exec (ui : Session) (command : str) : IO unit :=
  edited_command ←
    (if Py.contains LF command then
       _ ← Sys.print ui
             (py "Multiline command - Meta-Enter or Esc Enter to execute");
       Sys.prompt ui (py "> ") command true
     else Sys.prompt ui (py "> ") command false);
  Sys.try_except
    (output ← Sys.check_output ui edited_command;
     text ← Sys.lift (Py.decode output);
     Sys.print ui text)
    (λ e,
       match e with
       | CalledProcessError returncode output =>
           Some (text ← Sys.lift (Py.decode output);
                 Sys.print ui
                   (py "Command failed with error (exit status "
                    ++ Py.str_of_int returncode ++ py "): " ++ text))
       | _ => None
       end).

(** [cmd(args, model, system, key)], lines 46-62; an option that was not
    given on the command line is [None]. *)
Definition cmd (os : OS) (llm : LLM) (ui : Session)
    (args : list str) (model system key : option str) : IO unit :=
  let prompt := Py.join [SP] args in
  prompt ← Sys.lift (generate_context_prompt os prompt);
  model_id ←
    Sys.lift (match Py.truthy_value model with
              | Some model_id => Ok model_id
              | None => get_default_model llm
              end);
  model_obj ← Sys.lift (get_model llm model_id);
  model_obj ←
    (match Py.truthy_value (needs_key model_obj) with
     | Some alias =>
         k ← Sys.lift (get_key llm key alias (key_env_var model_obj));
         mret {| needs_key := needs_key model_obj;
                 key_env_var := key_env_var model_obj;
                 key := k |}
     | None => mret model_obj
     end);
  result ←
    Sys.lift (prompt_text llm model_obj prompt
                (match Py.truthy_value system with
                 | Some system => system
                 | None => SYSTEM_PROMPT
                 end));
  result ← Sys.lift (clean_codeblock result);
  interactive_exec ui result.

End llm_cmd.

Abbreviation FENCE := (py "```").

(** ** Facts about the Python primitives *)

Section PyFacts.

(** A line in the sense of [str.splitlines]: no line boundary inside. *)
Definition is_line (l : str) : bool :=
  forallb (λ c, negb (Py.is_linebreak c)) l.

Lemma getitem_head {A} (x : A) (l : list A) : Py.getitem (x :: l) 0 = Ok x.
Proof.
  unfold Py.getitem. cbn [length].
  replace (0 <? 0)%Z with false by reflexivity.
  replace (0 <? 0)%Z with false by reflexivity.
  destruct (Z.leb_spec (Z.of_nat (S (length l))) 0); [lia|]. reflexivity.
Qed.

Lemma getitem_last {A} (l : list A) (y : A) :
  last l = Some y → Py.getitem l (-1) = Ok y.
Proof.
  intros Hl. unfold Py.getitem.
  assert (Hn : (0 < length l)%nat).
  { destruct l; [discriminate | cbn; lia]. }
  replace (-1 <? 0)%Z with true by reflexivity.
  destruct (Z.ltb_spec (-1 + Z.of_nat (length l)) 0); [lia|].
  destruct (Z.leb_spec (Z.of_nat (length l)) (-1 + Z.of_nat (length l))); [lia|].
  cbn [orb].
  replace (Z.to_nat (-1 + Z.of_nat (length l))) with (pred (length l)) by lia.
  rewrite <- last_lookup, Hl. reflexivity.
Qed.

(** [l[1:-1]] drops the first and the last element (and yields the empty
    list when there are fewer than two). *)
Lemma getslice_inner {A} (l : list A) :
  Py.getslice l 1 (-1) = removelast (tail l).
Proof.
  unfold Py.getslice, Py.adjust.
  rewrite removelast_firstn_len.
  destruct l as [|x l]; [reflexivity|].
  cbn [tail length].
  replace (1 <? 0)%Z with false by reflexivity.
  replace (-1 <? 0)%Z with true by reflexivity.
  destruct (Z.ltb_spec (-1 + Z.of_nat (S (length l))) 0); [lia|].
  destruct (Z.leb_spec (Z.of_nat (S (length l))) 1).
  - assert (length l = 0)%nat as Hz by lia. rewrite Hz.
    destruct l; [reflexivity | discriminate].
  - replace (Z.to_nat 1) with 1%nat by reflexivity.
    replace (Z.to_nat (-1 + Z.of_nat (S (length l)) - 1)) with (pred (length l)) by lia.
    reflexivity.
Qed.

Lemma last_enclosed {A} (x y : A) (mid : list A) :
  last (x :: mid ++ [y]) = Some y.
Proof. apply (last_snoc y (x :: mid)). Qed.

Lemma splitlines_line (l s : str) :
  is_line l = true →
  Py.splitlines (l ++ LF :: s) = l :: Py.splitlines s.
Proof.
  induction l as [|c l IH]; intros Hl.
  - reflexivity.
  - cbn in Hl. apply andb_prop in Hl as [Hc Hl].
    apply negb_true_iff in Hc.
    cbn [app Py.splitlines]. rewrite Hc, (IH Hl). reflexivity.
Qed.

Lemma splitlines_single (l : str) :
  is_line l = true → l ≠ [] → Py.splitlines l = [l].
Proof.
  induction l as [|c l IH]; intros Hl Hne; [congruence|].
  cbn in Hl. apply andb_prop in Hl as [Hc Hl].
  apply negb_true_iff in Hc.
  cbn [Py.splitlines]. rewrite Hc.
  destruct l as [|c' l]; [reflexivity|].
  rewrite (IH Hl); [reflexivity | discriminate].
Qed.

(** Splitting undoes joining with "\n" when every element is a line and
    the last one is not empty. *)
Lemma splitlines_join (X : list str) (y : str) :
  Forall (λ l, is_line l = true) X →
  last X = Some y → y ≠ [] →
  Py.splitlines (Py.join [LF] X) = X.
Proof.
  induction X as [|x X IH]; intros HX Hlast Hy; [discriminate|].
  inversion HX as [|? ? Hx HX']; subst.
  destruct X as [|x' X].
  - cbn in Hlast. injection Hlast as ->.
    cbn [Py.join]. by apply splitlines_single.
  - change (Py.join [LF] (x :: x' :: X))
      with (x ++ LF :: Py.join [LF] (x' :: X)).
    rewrite (splitlines_line _ _ Hx), IH; auto.
Qed.

(** Every line that [splitlines] returns is free of line boundaries. *)
Lemma splitlines_lines_bounded (n : nat) (s : str) :
  (length s ≤ n)%nat → Forall (λ l, is_line l = true) (Py.splitlines s).
Proof.
  revert s. induction n as [|n IH]; intros s Hn.
  - destruct s; [constructor | cbn in Hn; lia].
  - destruct s as [|c rest]; [constructor|]. cbn [length] in Hn.
    cbn [Py.splitlines].
    destruct (Py.is_linebreak c) eqn:Hc.
    + constructor; [reflexivity|].
      destruct (c =? CR); [|apply IH; lia].
      destruct rest as [|c' rest']; [constructor|].
      destruct (c' =? LF); apply IH; cbn [length] in *; lia.
    + assert (Hrest : Forall (λ l, is_line l = true) (Py.splitlines rest))
        by (apply IH; lia).
      destruct (Py.splitlines rest) as [|l ls].
      * repeat constructor. cbn. by rewrite Hc.
      * inversion Hrest as [|? ? Hl Hls]; subst.
        constructor; [|done]. unfold is_line in *. cbn [forallb].
        by rewrite Hc, Hl.
Qed.

Lemma splitlines_lines (s : str) :
  Forall (λ l, is_line l = true) (Py.splitlines s).
Proof. by apply (splitlines_lines_bounded (length s)). Qed.

Lemma join_lines_breaks (L : list str) (c : N) :
  Forall (λ l, is_line l = true) L →
  c ∈ Py.join [LF] L → Py.is_linebreak c = true → c = LF.
Proof.
  induction 1 as [|l L Hl HL IH]; intros Hin Hc.
  - by apply elem_of_nil in Hin.
  - assert (Hline : c ∈ l → c = LF).
    { intros Hcl. unfold is_line in Hl.
      rewrite forallb_forall in Hl. apply list_elem_of_In, Hl in Hcl.
      by rewrite Hc in Hcl. }
    destruct L as [|l' L]; [by apply Hline|].
    change (Py.join [LF] (l :: l' :: L))
      with (l ++ LF :: Py.join [LF] (l' :: L)) in Hin.
    apply elem_of_app in Hin as [Hin|Hin]; [by apply Hline|].
    apply elem_of_cons in Hin as [Hin|Hin]; [done | by apply IH].
Qed.

Lemma Forall_inner {A} (P : A → Prop) (L : list A) :
  Forall P L → Forall P (removelast (tail L)).
Proof.
  intros HL. rewrite removelast_firstn_len. apply Forall_take.
  destruct HL; [constructor | done].
Qed.










End PyFacts.

(** ** Fence stripping *)

Section Sanitizer.

(** Both the first and the last line start with a fence marker. *)
Definition fenced (lines : list str) : bool :=
  match head lines, last lines with
  | Some first, Some last => Py.startswith first FENCE && Py.startswith last FENCE
  | _, _ => false
  end.

(** What [clean_codeblock] computes, on the lines of its input. *)
Lemma clean_codeblock_lines (text : str) :
  llm_cmd.clean_codeblock text =
    Ok (Py.join [LF]
          (if fenced (Py.splitlines text)
           then removelast (tail (Py.splitlines text))
           else Py.splitlines text)).
Proof.
  unfold llm_cmd.clean_codeblock, fenced.
  destruct (Py.splitlines text) as [|first rest] eqn:E; [reflexivity|].
  cbn [Py.truthy head]. rewrite getitem_head. cbn [mbind result_bind].
  destruct (last (first :: rest)) as [l|] eqn:El.
  2:{ apply last_None in El. discriminate. }
  rewrite (getitem_last _ _ El).
  destruct (Py.startswith first FENCE); cbn [mbind result_bind mret result_ret andb].
  - destruct (Py.startswith l FENCE); [|reflexivity].
    by rewrite getslice_inner.
  - reflexivity.
Qed.

(** C2. [clean_codeblock] works on the lines of the text
    ([str.splitlines]).  If the first line and the last line both start
    with the fence marker, exactly these two lines are removed and the
    lines between them are joined with newlines; a text whose only line
    starts with a fence marker (first and last line coincide) becomes the
    empty string; in every other case the result is the original lines
    joined with newlines. *)
Theorem clean_codeblock_spec (text : str) :
  let lines := Py.splitlines text in
  (∀ first mid last,
      lines = first :: mid ++ [last] →
      Py.startswith first FENCE = true → Py.startswith last FENCE = true →
      llm_cmd.clean_codeblock text = Ok (Py.join [LF] mid))
  ∧ (∀ line,
      lines = [line] → Py.startswith line FENCE = true →
      llm_cmd.clean_codeblock text = Ok [])
  ∧ (fenced lines = false →
      llm_cmd.clean_codeblock text = Ok (Py.join [LF] lines)).
Proof.
  cbn zeta. rewrite clean_codeblock_lines. split; [|split].
  - intros first mid l -> Hf Hl. unfold fenced.
    cbn [head]. rewrite last_enclosed, Hf, Hl.
    cbn [andb tail]. by rewrite removelast_last.
  - intros line -> Hf. unfold fenced. cbn [head last]. by rewrite Hf.
  - by intros ->.
Qed.

Lemma clean_codeblock_spec_witness :
  llm_cmd.clean_codeblock (py "```" ++ [LF] ++ py "ls -la" ++ [LF] ++ py "```")
  = Ok (py "ls -la")
  ∧ llm_cmd.clean_codeblock (py "```") = Ok []
  ∧ llm_cmd.clean_codeblock (py "ls" ++ [CR; LF] ++ py "pwd" ++ [LF])
    = Ok (py "ls" ++ [LF] ++ py "pwd").
Proof.
  split; [|split].
  - apply (proj1 (clean_codeblock_spec
                    (py "```" ++ [LF] ++ py "ls -la" ++ [LF] ++ py "```"))
             (py "```") [py "ls -la"] (py "```")); reflexivity.
  - apply (proj1 (proj2 (clean_codeblock_spec (py "```"))) (py "```"));
      reflexivity.
  - apply (proj2 (proj2 (clean_codeblock_spec
                           (py "ls" ++ [CR; LF] ++ py "pwd" ++ [LF]))));
      reflexivity.
Defined.




(** C8 as stated fails for a body line that contains a line boundary other
    than "\n".  The body line "echo hi\r" comes back as "echo hi": its
    carriage return and the joining newline are read as the one terminator
    "\r\n".  The body line "a\x0cb" comes back as the two lines "a" and
    "b". *)
Lemma clean_codeblock_roundtrip_counterexample :
  [py "echo hi" ++ [CR]] ≠ []
  ∧ Forall (λ l, Py.startswith l FENCE = false) [py "echo hi" ++ [CR]]
  ∧ llm_cmd.clean_codeblock
      (Py.join [LF] ([FENCE] ++ [py "echo hi" ++ [CR]] ++ [FENCE]))
    = Ok (py "echo hi")
  ∧ llm_cmd.clean_codeblock
      (Py.join [LF] ([FENCE] ++ [py "echo hi" ++ [CR]] ++ [FENCE]))
    ≠ Ok (Py.join [LF] [py "echo hi" ++ [CR]])
  ∧ Forall (λ l, Py.startswith l FENCE = false) [py "a" ++ [12] ++ py "b"]
  ∧ llm_cmd.clean_codeblock
      (Py.join [LF] ([FENCE] ++ [py "a" ++ [12] ++ py "b"] ++ [FENCE]))
    = Ok (py "a" ++ [LF] ++ py "b")
  ∧ llm_cmd.clean_codeblock
      (Py.join [LF] ([FENCE] ++ [py "a" ++ [12] ++ py "b"] ++ [FENCE]))
    ≠ Ok (Py.join [LF] [py "a" ++ [12] ++ py "b"]).
Proof.
  split; [discriminate|].
  split; [by repeat constructor|].
  split; [vm_compute; reflexivity|].
  split; [vm_compute; discriminate|].
  split; [by repeat constructor|].
  split; [vm_compute; reflexivity|].
  vm_compute. discriminate.
Qed.

End Sanitizer.

(** ** Context collector: environment variables *)

Section EnvContext.

Variable os : OS.

(** The entry emitted for a variable that is set. *)
Definition env_entry (var value : str) : str :=
  var ++ py "=" ++ Py.strip value.

(** The loop of [env_var_context], started from any accumulator. *)
Lemma env_var_context_loop (env_vars acc : list str) :
  fold_left
    (λ env_var_values var,
       match environ os !! var with
       | Some value => env_var_values ++ [var ++ py "=" ++ Py.strip value]
       | None => env_var_values
       end)
    env_vars acc
  = acc ++ omap (λ var, env_entry var <$> environ os !! var) env_vars.
Proof.
  revert acc. induction env_vars as [|var vars IH]; intros acc.
  - by rewrite app_nil_r.
  - cbn [fold_left omap list_omap]. rewrite IH.
    destruct (environ os !! var) as [value|]; cbn [fmap option_fmap option_map].
    + by rewrite <- app_assoc.
    + done.
Qed.

Lemma env_var_context_omap (env_vars : list str) :
  llm_cmd.env_var_context os env_vars
  = omap (λ var, env_entry var <$> environ os !! var) env_vars.
Proof. unfold llm_cmd.env_var_context. by rewrite env_var_context_loop. Qed.

(** C5. [env_var_context] is a total function (it cannot raise) whose
    result is, entry for entry, the sub-sequence of the given names that
    are set in the environment, each rendered as NAME=value with the value
    stripped: same relative order, one entry per set name, and every
    entry comes from a name of the list that is set. *)
Theorem env_var_context_spec (env_vars : list str) :
  ∃ present : list (str * str),
    llm_cmd.env_var_context os env_vars
    = map (λ nv, nv.1 ++ py "=" ++ Py.strip nv.2) present
    ∧ map fst present
      = filter (λ var, is_Some (environ os !! var)) env_vars
    ∧ sublist (map fst present) env_vars
    ∧ Forall (λ nv, environ os !! nv.1 = Some nv.2) present.
Proof.
  rewrite env_var_context_omap.
  induction env_vars as [|var vars (present & Heq & Hfil & Hsub & Hall)].
  - exists []. repeat split; constructor.
  - cbn [omap list_omap]. rewrite filter_cons.
    destruct (environ os !! var) as [value|] eqn:E.
    + exists ((var, value) :: present).
      cbn [fmap option_fmap option_map map fst snd].
      rewrite Heq, Hfil. split; [done|].
      rewrite decide_True by (by eexists).
      split; [done|]. rewrite <- Hfil. split; by constructor.
    + exists present. cbn [fmap option_fmap option_map].
      split; [done|]. rewrite decide_False by (by intros [? ?]).
      split; [done|]. split; [by constructor | done].
Qed.

Lemma rstrip_blank (s : str) :
  forallb Py.isspace s = true → Py.rstrip s = [].
Proof.
  induction s as [|c s IH]; [done|]. cbn [forallb Py.rstrip].
  intros [Hc Hs]%andb_prop. by rewrite (IH Hs), Hc.
Qed.

Lemma strip_blank (s : str) :
  forallb Py.isspace s = true → Py.strip s = [].
Proof. intros H. unfold Py.strip. by rewrite rstrip_blank. Qed.

(** C10. Inclusion is decided by the name being present in the
    environment, whatever its value: a listed name that is set yields the
    entry made of the name as given, "=", and the stripped value; when the
    value is empty or only whitespace that entry is the name followed by
    "=" and nothing else. *)
Theorem env_var_context_blank_value (env_vars : list str) (var value : str) :
  var ∈ env_vars →
  environ os !! var = Some value →
  (var ++ py "=" ++ Py.strip value) ∈ llm_cmd.env_var_context os env_vars
  ∧ (forallb Py.isspace value = true →
     (var ++ py "=") ∈ llm_cmd.env_var_context os env_vars).
Proof.
  intros Hin Hset. rewrite env_var_context_omap.
  assert (Hentry : env_entry var value
            ∈ omap (λ var, env_entry var <$> environ os !! var) env_vars).
  { apply list_elem_of_omap. exists var. split; [done|]. by rewrite Hset. }
  split; [exact Hentry|].
  intros Hblank. unfold env_entry in Hentry.
  by rewrite (strip_blank _ Hblank), app_nil_r in Hentry.
Qed.

End EnvContext.

(** ** Context collector: shell history *)

Section Deque.

(** The last [k] elements of a list. *)
Definition lastn {A} (k : nat) (l : list A) : list A :=
  drop (length l - k) l.

(** A bounded deque filled from an iterable ends up holding the last
    [maxlen] items seen. *)
Lemma deque_fill {A} (maxlen : nat) (items acc : list A) :
  (length acc ≤ maxlen)%nat →
  fold_left (Py.deque_append maxlen) items acc = lastn maxlen (acc ++ items).
Proof.
  revert acc. induction items as [|x items IH]; intros acc Hacc.
  - cbn [fold_left]. rewrite app_nil_r. unfold lastn.
    assert (length acc - maxlen = 0)%nat as -> by lia. done.
  - cbn [fold_left]. unfold Py.deque_append at 2.
    destruct (Nat.ltb_spec maxlen (length (acc ++ [x]))) as [Hfull|Hroom].
    + rewrite length_app in Hfull. cbn [length] in Hfull.
      destruct acc as [|a acc].
      * cbn [length] in Hfull.
        assert (maxlen = 0)%nat as -> by lia.
        cbn [app tl]. rewrite IH by (cbn; lia).
        unfold lastn. cbn [app length]. rewrite Nat.sub_0_r.
        done.
      * cbn [app tl]. cbn [length] in Hacc, Hfull.
        rewrite IH by (rewrite length_app; cbn [length]; lia).
        unfold lastn. rewrite <- !app_assoc. cbn [app].
        rewrite !length_app. cbn [length]. rewrite !length_app. cbn [length].
        assert (S (length acc + S (length items)) - maxlen
                = S (length acc + S (length items) - maxlen))%nat as -> by lia.
        done.
    + rewrite length_app in Hroom. cbn [length] in Hroom.
      rewrite IH by (rewrite length_app; cbn [length]; lia).
      by rewrite <- app_assoc.
Qed.


(** The bounds of a C [ssize_t] are checked first, then the sign. *)
Lemma deque_refused {A} (iterable : result (list A)) (n : Z) :
  ((n < - Py.SSIZE_MAX - 1)%Z ∨ (Py.SSIZE_MAX < n)%Z →
   Py.deque iterable n = Raise OverflowError)
  ∧ ((- Py.SSIZE_MAX - 1 ≤ n < 0)%Z →
     Py.deque iterable n = Raise (ValueError "maxlen must be non-negative")).
Proof.
  unfold Py.deque.
  destruct (Z.ltb_spec n (- Py.SSIZE_MAX - 1)%Z);
    destruct (Z.ltb_spec Py.SSIZE_MAX n);
    destruct (Z.ltb_spec n 0); cbn [orb]; split; intros; try done;
    unfold Py.SSIZE_MAX in *; lia.
Qed.


End Deque.

Section History.

Variable os : OS.

(** The file that [shell_history_context] reads. *)
Definition history_path (history_file : option str) : str :=
  expanduser os
    (match history_file with
     | None => default (py "~/.bash_history") (environ os !! py "HISTFILE")
     | Some path => path
     end).

Lemma shell_history_context_tail (n : Z) (history_file : option str) :
  llm_cmd.shell_history_context os n history_file
  = map Py.strip <$> llm_cmd.tail os (history_path history_file) n.
Proof.
  unfold llm_cmd.shell_history_context, history_path.
  by destruct (llm_cmd.tail _ _ _).
Qed.


(** C7. When the history file cannot be opened, the error raised by
    [open] is the outcome of [tail], of [shell_history_context] and of
    [generate_context_prompt]: nothing catches it, retries, or substitutes
    an empty history. *)
Theorem history_open_error_propagates
    (n : Z) (history_file : option str) (e : exn) :
  open_r os (history_path history_file) = Raise e →
  llm_cmd.tail os (history_path history_file) n = Raise e
  ∧ llm_cmd.shell_history_context os n history_file = Raise e
  ∧ (history_file = None →
     ∀ user_prompt, llm_cmd.generate_context_prompt os user_prompt = Raise e).
Proof.
  intros Hopen.
  assert (Htail : ∀ k, llm_cmd.tail os (history_path history_file) k = Raise e).
  { intros k. unfold llm_cmd.tail. by rewrite Hopen. }
  assert (Hctx : ∀ k, llm_cmd.shell_history_context os k history_file = Raise e).
  { intros k. by rewrite shell_history_context_tail, Htail. }
  split; [done|]. split; [done|].
  intros -> user_prompt. unfold llm_cmd.generate_context_prompt.
  by rewrite Hctx.
Qed.

End History.

(** ** Prompt builder *)

Section StringFacts.

Lemma join_cons (sep x : str) (l : list str) :
  l ≠ [] → Py.join sep (x :: l) = x ++ sep ++ Py.join sep l.
Proof. by destruct l. Qed.

Lemma join_app (sep : str) (X Y : list str) :
  X ≠ [] → Y ≠ [] →
  Py.join sep (X ++ Y) = Py.join sep X ++ sep ++ Py.join sep Y.
Proof.
  induction X as [|x X IH]; intros HX HY; [done|].
  destruct X as [|x' X].
  - cbn [app]. by rewrite join_cons.
  - change ((x :: x' :: X) ++ Y) with (x :: ((x' :: X) ++ Y)).
    rewrite !join_cons, IH by done. by rewrite <- !app_assoc.
Qed.

Lemma rstrip_cons_nonspace (c : N) (s : str) :
  Py.isspace c = false → Py.rstrip (c :: s) = c :: Py.rstrip s.
Proof. intros Hc. cbn [Py.rstrip]. rewrite Hc. by destruct (Py.rstrip s). Qed.

Lemma rstrip_app_nonblank (a b : str) :
  Py.rstrip b ≠ [] → Py.rstrip (a ++ b) = a ++ Py.rstrip b.
Proof.
  intros Hb. induction a as [|c a IH]; [done|].
  cbn [app Py.rstrip]. rewrite IH.
  destruct (a ++ Py.rstrip b) eqn:E; [|done].
  by apply app_eq_nil in E as [_ ?].
Qed.

(** What [rstrip] removes is a suffix. *)
Lemma rstrip_prefix (s : str) : ∃ t, s = Py.rstrip s ++ t.
Proof.
  induction s as [|c s [t IH]]; [by exists []|].
  cbn [Py.rstrip]. destruct (Py.rstrip s) as [|c' r] eqn:E.
  - destruct (Py.isspace c).
    + by exists (c :: s).
    + exists s. done.
  - exists t. change (c :: s = c :: ((c' :: r) ++ t)). by f_equal.
Qed.

End StringFacts.

Ltac eval_py :=
  repeat match goal with
         | |- context [py ?s] =>
             let v := eval vm_compute in (py s) in change (py s) with v
         end.

Section Prompt.

Variable os : OS.

(** The header line of the history section. *)
Definition HISTORY_HEADER : str :=
  py "# history " ++ Py.str_of_int llm_cmd.N_SHELL_HISTORY_LINES.

(** The text that [generate_context_prompt] strips: the f-string of line
    123, for given environment lines and history lines. *)
Definition template (env history : list str) (user_prompt : str) : str :=
  py "# env" ++ [LF] ++ Py.join [LF] env ++ [LF]
  ++ HISTORY_HEADER ++ [LF]
  ++ Py.join [LF] history ++ [LF]
  ++ py "# now: " ++ user_prompt.

Lemma generate_context_prompt_template (user_prompt : str) :
  llm_cmd.generate_context_prompt os user_prompt
  = (λ history,
       Py.strip (template (llm_cmd.env_var_context os llm_cmd.ENV_VARS_CONTEXT)
                   history user_prompt))
    <$> llm_cmd.shell_history_context os llm_cmd.N_SHELL_HISTORY_LINES None.
Proof.
  unfold llm_cmd.generate_context_prompt, template, HISTORY_HEADER.
  destruct (llm_cmd.shell_history_context _ _ _); [|done].
  cbn [mbind result_bind mret result_ret fmap result_fmap].
  by rewrite <- !app_assoc.
Qed.

(** The lines below a header: the given lines, or one empty line when
    there are none. *)
Definition body (lines : list str) : list str :=
  match lines with
  | [] => [[]]
  | _ :: _ => lines
  end.

Lemma join_body (lines : list str) :
  Py.join [LF] (body lines) = Py.join [LF] lines.
Proof. by destruct lines. Qed.

Lemma body_lines (lines : list str) : lines ≠ [] → body lines = lines.
Proof. by destruct lines. Qed.

Lemma body_nonempty (lines : list str) : body lines ≠ [].
Proof. by destruct lines. Qed.

(** The layout the specification describes: header lines and body lines,
    one per line, nothing else. *)
Definition spec_prompt
    (env : list str) (n : Z) (history : list str) (instruction : str) : str :=
  Py.strip
    (Py.join [LF]
       ([py "# env"] ++ env
        ++ [py "# history " ++ Py.str_of_int n] ++ history
        ++ [py "# now: " ++ instruction])).

Lemma template_lines (env history : list str) (user_prompt : str) :
  template env history user_prompt
  = Py.join [LF]
      ([py "# env"] ++ body env
       ++ [HISTORY_HEADER] ++ body history
       ++ [py "# now: " ++ user_prompt]).
Proof.
  unfold template.
  rewrite (join_app _ [py "# env"]) by (try done; by destruct (body env)).
  rewrite (join_app _ (body env))
    by (apply body_nonempty || by destruct (body history)).
  rewrite (join_app _ [HISTORY_HEADER]) by (try done; by destruct (body history)).
  rewrite (join_app _ (body history)) by (apply body_nonempty || done).
  rewrite !join_body. reflexivity.
Qed.

(** C3, as the code has it.  When the history file can be read, the prompt
    is the strip of: the line "# env", the environment lines, the line
    "# history 3", the history lines, and the line "# now: " followed
    by the instruction, joined by single newlines, where an empty
    environment block or history block stands as one empty line below its
    header.  When both blocks have lines this is exactly the layout of the
    specification. *)
Theorem generate_context_prompt_layout (user_prompt : str) (history : list str) :
  llm_cmd.shell_history_context os llm_cmd.N_SHELL_HISTORY_LINES None
  = Ok history →
  let env := llm_cmd.env_var_context os llm_cmd.ENV_VARS_CONTEXT in
  llm_cmd.generate_context_prompt os user_prompt
  = Ok (Py.strip
          (Py.join [LF]
             ([py "# env"] ++ body env
              ++ [py "# history 3"] ++ body history
              ++ [py "# now: " ++ user_prompt])))
  ∧ (env ≠ [] → history ≠ [] →
     llm_cmd.generate_context_prompt os user_prompt
     = Ok (spec_prompt env llm_cmd.N_SHELL_HISTORY_LINES history user_prompt)).
Proof.
  intros Hhist env. subst env.
  rewrite generate_context_prompt_template, Hhist.
  cbn [fmap result_fmap]. rewrite template_lines. split; [done|].
  intros Henv Hh. unfold spec_prompt.
  by rewrite (body_lines _ Henv), (body_lines _ Hh).
Qed.

End Prompt.

(** ** Section markers of the prompt *)

(** Number of positions of [s] at which [marker] occurs. *)
Fixpoint occurrences (marker s : str) : nat :=
  match s with
  | [] => 0
  | _ :: s' => (if Py.startswith s marker then 1 else 0) + occurrences marker s'
  end.

Definition MARKERS : list str := [py "# env"; HISTORY_HEADER; py "# now:"].

Definition HASH : N := 35.

Section Occurrences.

(** A marker: "#" followed by characters other than the newline. *)
Variable rest : str.
Hypothesis rest_one_line : forallb (λ c, negb (c =? LF)) rest = true.

#[local] Abbreviation marker := (HASH :: rest).

Lemma startswith_app_sep (m s t : str) :
  forallb (λ c, negb (c =? LF)) m = true →
  Py.startswith (s ++ LF :: t) m = Py.startswith s m.
Proof.
  revert s. induction m as [|p m IH]; intros s Hm; [by destruct s|].
  cbn [forallb] in Hm. apply andb_prop in Hm as [Hp Hm].
  destruct s as [|c s]; cbn [app Py.startswith].
  - apply negb_true_iff, N.eqb_neq in Hp.
    apply andb_false_intro1, N.eqb_neq. congruence.
  - by rewrite IH.
Qed.

Lemma startswith_nil (s : str) : Py.startswith s [] = true.
Proof. by destruct s. Qed.

Lemma startswith_app_l (m s t : str) :
  Py.startswith s m = true → Py.startswith (s ++ t) m = true.
Proof.
  revert s. induction m as [|p m IH]; intros s;
    [by rewrite !startswith_nil|].
  destruct s as [|c s]; cbn [app Py.startswith]; [done|].
  intros [-> Hs]%andb_prop. by rewrite IH.
Qed.

Lemma occurrences_sep (a b : str) :
  occurrences marker (a ++ LF :: b)
  = (occurrences marker a + occurrences marker b)%nat.
Proof.
  assert (Hm : forallb (λ c, negb (c =? LF)) marker = true).
  { cbn [forallb]. by rewrite rest_one_line. }
  induction a as [|x a IH].
  - pose proof (startswith_app_sep marker [] b Hm) as E.
    cbn [app occurrences] in E |- *. by rewrite E.
  - change ((x :: a) ++ LF :: b) with (x :: (a ++ LF :: b)).
    cbn [occurrences]. rewrite IH.
    change (x :: (a ++ LF :: b)) with ((x :: a) ++ LF :: b).
    rewrite (startswith_app_sep marker (x :: a) b Hm). lia.
Qed.

Lemma occurrences_join (lines : list str) :
  Forall (λ l, occurrences marker l = 0%nat) lines →
  occurrences marker (Py.join [LF] lines) = 0%nat.
Proof.
  induction 1 as [|l lines Hl Hlines IH]; [done|].
  destruct lines as [|l' lines]; [done|].
  change (Py.join [LF] (l :: l' :: lines))
    with (l ++ LF :: Py.join [LF] (l' :: lines)).
  rewrite occurrences_sep, Hl, IH. done.
Qed.

Lemma occurrences_app_le (a b : str) :
  (occurrences marker a ≤ occurrences marker (a ++ b))%nat.
Proof.
  induction a as [|x a IH]; [cbn; lia|].
  change ((x :: a) ++ b) with (x :: (a ++ b)). cbn [occurrences].
  destruct (Py.startswith (x :: a) marker) eqn:E.
  - change (x :: (a ++ b)) with ((x :: a) ++ b).
    rewrite (startswith_app_l _ _ b E). lia.
  - destruct (Py.startswith (x :: a ++ b) marker); lia.
Qed.

Lemma occurrences_cons_ne (c : N) (s : str) :
  c ≠ HASH → occurrences marker (c :: s) = occurrences marker s.
Proof.
  intros Hc. cbn [occurrences Py.startswith].
  apply N.eqb_neq in Hc. by rewrite Hc.
Qed.

Lemma occurrences_rstrip_le (s : str) :
  (occurrences marker (Py.rstrip s) ≤ occurrences marker s)%nat.
Proof.
  destruct (rstrip_prefix s) as [t Ht].
  rewrite Ht at 2. apply occurrences_app_le.
Qed.

End Occurrences.

Ltac norm_app := repeat (progress (rewrite <- ?app_assoc; cbn [app])).

Section PromptMarkers.

Lemma rstrip_app_cons (a : str) (c : N) (b : str) :
  Py.isspace c = false → Py.rstrip (a ++ c :: b) = a ++ c :: Py.rstrip b.
Proof.
  intros Hc. rewrite rstrip_app_nonblank; by rewrite rstrip_cons_nonspace.
Qed.

Lemma strip_template (env history : list str) (user_prompt : str) :
  Py.strip (template env history user_prompt)
  = py "# env" ++ LF :: Py.join [LF] env ++ LF :: HISTORY_HEADER
    ++ LF :: Py.join [LF] history ++ LF :: py "# now:"
    ++ Py.rstrip (SP :: user_prompt).
Proof.
  unfold Py.strip.
  assert (template env history user_prompt
          = (py "# env" ++ LF :: Py.join [LF] env ++ LF :: HISTORY_HEADER
             ++ LF :: Py.join [LF] history ++ LF :: py "# now")
            ++ 58 :: SP :: user_prompt) as ->.
  { unfold template. norm_app. reflexivity. }
  rewrite rstrip_app_cons by reflexivity.
  norm_app.
  change (py "# env") with (HASH :: py " env").
  cbn [app Py.lstrip].
  change (Py.isspace HASH) with false. cbn match.
  reflexivity.
Qed.

Lemma occurrences_cons (marker : str) (c : N) (s : str) :
  occurrences marker (c :: s)
  = ((if Py.startswith (c :: s) marker then 1 else 0) + occurrences marker s)%nat.
Proof. reflexivity. Qed.

(** Every marker is "#" followed by characters other than the newline. *)
Lemma marker_shape (marker : str) :
  marker ∈ MARKERS →
  ∃ rest, marker = HASH :: rest ∧ forallb (λ c, negb (c =? LF)) rest = true.
Proof.
  unfold MARKERS. rewrite !elem_of_cons, elem_of_nil.
  intros [-> | [-> | [-> | []]]]; eexists; (split; [vm_compute|]); reflexivity.
Qed.

(** Occurrences of a marker in the prompt, section by section. *)
Lemma occurrences_prompt (marker : str) (env history : list str) (user_prompt : str) :
  marker ∈ MARKERS →
  occurrences marker (Py.strip (template env history user_prompt))
  = (1 + occurrences marker (Py.join [LF] env)
     + occurrences marker (Py.join [LF] history)
     + occurrences marker (Py.rstrip (SP :: user_prompt)))%nat.
Proof.
  intros Hm. destruct (marker_shape _ Hm) as (rest & Hrest & Hsep).
  rewrite strip_template.
  assert (Hnow : ∀ X,
    occurrences marker (py "# now:" ++ X)
    = ((if Py.startswith (py "# now:" ++ X) marker then 1 else 0)
       + occurrences marker X)%nat).
  { intros X. eval_py. cbn [app]. rewrite occurrences_cons. f_equal.
    rewrite Hrest. by rewrite !occurrences_cons_ne by discriminate. }
  rewrite Hrest, !(occurrences_sep rest Hsep), <- Hrest, Hnow.
  generalize (occurrences marker (Py.join [LF] env))
             (occurrences marker (Py.join [LF] history))
             (occurrences marker (Py.rstrip (SP :: user_prompt)))
             (Py.rstrip (SP :: user_prompt)).
  intros a b c X. clear Hrest Hsep Hnow.
  revert Hm. unfold MARKERS. rewrite !elem_of_cons, elem_of_nil.
  intros [-> | [-> | [-> | []]]].
  - change (occurrences (py "# env") (py "# env")) with 1%nat.
    change (occurrences (py "# env") HISTORY_HEADER) with 0%nat.
    change (Py.startswith (py "# now:" ++ X) (py "# env")) with false.
    cbv iota. lia.
  - change (occurrences HISTORY_HEADER (py "# env")) with 0%nat.
    change (occurrences HISTORY_HEADER HISTORY_HEADER) with 1%nat.
    change (Py.startswith (py "# now:" ++ X) HISTORY_HEADER) with false.
    cbv iota. lia.
  - change (occurrences (py "# now:") (py "# env")) with 0%nat.
    change (occurrences (py "# now:") HISTORY_HEADER) with 0%nat.
    change (Py.startswith (py "# now:" ++ X) (py "# now:")) with true.
    cbv iota. lia.
Qed.

Lemma occurrences_instruction (marker user_prompt : str) :
  marker ∈ MARKERS →
  (occurrences marker (Py.rstrip (SP :: user_prompt))
   ≤ occurrences marker user_prompt)%nat.
Proof.
  intros Hm. destruct (marker_shape _ Hm) as (rest & -> & Hsep).
  etrans; [apply occurrences_rstrip_le|].
  by rewrite occurrences_cons_ne.
Qed.

Lemma occurrences_join_marker (marker : str) (lines : list str) :
  marker ∈ MARKERS →
  Forall (λ l, occurrences marker l = 0%nat) lines →
  occurrences marker (Py.join [LF] lines) = 0%nat.
Proof.
  intros Hm Hfree. destruct (marker_shape _ Hm) as (rest & -> & Hsep).
  by apply (occurrences_join rest Hsep).
Qed.

(** C9, as the code has it.  The prompt is a function of the instruction,
    the environment lines and the history lines: two processes that give
    the same lines give the same prompt for the same instruction.  When
    the history file can be read, each of the markers "# env",
    "# history 3" and "# now:" occurs in the prompt at least once, and
    each marker occurs exactly once whenever that marker occurs in none of
    the environment lines, history lines and instruction. *)
Theorem generate_context_prompt_markers :
  (∀ (os1 os2 : OS) (user_prompt : str),
      llm_cmd.env_var_context os1 llm_cmd.ENV_VARS_CONTEXT
      = llm_cmd.env_var_context os2 llm_cmd.ENV_VARS_CONTEXT →
      llm_cmd.shell_history_context os1 llm_cmd.N_SHELL_HISTORY_LINES None
      = llm_cmd.shell_history_context os2 llm_cmd.N_SHELL_HISTORY_LINES None →
      llm_cmd.generate_context_prompt os1 user_prompt
      = llm_cmd.generate_context_prompt os2 user_prompt)
  ∧ (∀ (os : OS) (user_prompt : str) (history : list str),
      llm_cmd.shell_history_context os llm_cmd.N_SHELL_HISTORY_LINES None
      = Ok history →
      ∃ prompt,
        llm_cmd.generate_context_prompt os user_prompt = Ok prompt
        ∧ ∀ marker,
            marker ∈ MARKERS →
            (1 ≤ occurrences marker prompt)%nat
            ∧ (Forall (λ l, occurrences marker l = 0%nat)
                 (llm_cmd.env_var_context os llm_cmd.ENV_VARS_CONTEXT) →
               Forall (λ l, occurrences marker l = 0%nat) history →
               occurrences marker user_prompt = 0%nat →
               occurrences marker prompt = 1%nat)).
Proof.
  split.
  - intros os1 os2 user_prompt Henv Hhist.
    by rewrite !generate_context_prompt_template, Henv, Hhist.
  - intros os user_prompt history Hhist. eexists.
    rewrite generate_context_prompt_template, Hhist.
    split; [reflexivity|]. intros marker Hm.
    rewrite (occurrences_prompt _ _ _ _ Hm). split; [lia|].
    intros Henv Hh Hp.
    rewrite (occurrences_join_marker _ _ Hm Henv),
      (occurrences_join_marker _ _ Hm Hh).
    pose proof (occurrences_instruction marker user_prompt Hm) as Hle.
    rewrite Hp in Hle. lia.
Qed.

End PromptMarkers.

(** ** Interactive executor *)

Section Executor.

Variable ui : Session.

Definition is_exec (ev : event) : bool :=
  match ev with
  | Executed _ _ => true
  | _ => false
  end.

Definition NOTICE : str :=
  py "Multiline command - Meta-Enter or Esc Enter to execute".

Definition failure_message (returncode : Z) (text : str) : str :=
  py "Command failed with error (exit status "
  ++ Py.str_of_int returncode ++ py "): " ++ text.

(** What [print(text)] adds to the run. *)
Definition printed (text : str) : list event * result unit :=
  if stdout_encodes ui text then ([Printed (text ++ [LF])], Ok ())
  else ([], Raise UnicodeEncodeError).

(** What follows the execution of the confirmed command. *)
Definition report (outcome : result (Z * bytes)) : list event * result unit :=
  match outcome with
  | Ok (returncode, output) =>
      match Py.decode output with
      | Ok text =>
          printed (if (returncode =? 0)%Z then text
                   else failure_message returncode text)
      | Raise _ => ([], Raise UnicodeDecodeError)
      end
  | Raise (CalledProcessError returncode output) =>
      match Py.decode output with
      | Ok text => printed (failure_message returncode text)
      | Raise _ => ([], Raise UnicodeDecodeError)
      end
  | Raise e => ([], Raise e)
  end.

Lemma printed_no_exec (text : str) :
  Forall (λ ev, is_exec ev = false) (printed text).1.
Proof. unfold printed. destruct (stdout_encodes ui text); repeat constructor. Qed.

Lemma report_no_exec (outcome : result (Z * bytes)) :
  Forall (λ ev, is_exec ev = false) (report outcome).1.
Proof.
  destruct outcome as [[returncode output]|[]]; cbn [report];
    try destruct (Py.decode _); try apply printed_no_exec;
    cbn [fst]; repeat constructor.
Qed.

(** Decoding fails in one way only. *)
Lemma decode_raises (b : bytes) (e : exn) :
  Py.decode b = Raise e → e = UnicodeDecodeError.
Proof. unfold Py.decode. destruct (Py.decode_utf8 _); congruence. Qed.

(** The notice is ASCII text: standard output can encode it. *)
Lemma notice_encodes : stdout_encodes ui NOTICE = true.
Proof. apply stdout_ascii. reflexivity. Qed.

(** The [try] statement of [interactive_exec], lines 135-143. *)
Definition execute (edited_command : str) : IO unit :=
  Sys.try_except
    (output ← Sys.check_output ui edited_command;
     text ← Sys.lift (Py.decode output);
     Sys.print ui text)
    (λ e,
       match e with
       | CalledProcessError returncode output =>
           Some (text ← Sys.lift (Py.decode output);
                 Sys.print ui
                   (py "Command failed with error (exit status "
                    ++ Py.str_of_int returncode ++ py "): " ++ text))
       | _ => None
       end).

Lemma execute_run (edited : str) (log : list event) :
  execute edited log
  = (log ++ Executed edited (run ui edited) :: (report (run ui edited)).1,
     (report (run ui edited)).2).
Proof.
  unfold execute, Sys.try_except, Sys.check_output, Sys.lift, Sys.print,
    report, printed, failure_message.
  cbv [mbind IO_bind].
  destruct (run ui edited) as [[returncode output]|e].
  - destruct (returncode =? 0)%Z; cbv beta iota;
      (destruct (Py.decode output) as [text|e] eqn:E;
       [destruct (stdout_encodes ui _); cbn [fst snd];
        [rewrite <- app_assoc; reflexivity | reflexivity]
       |apply decode_raises in E as ->; reflexivity]).
  - destruct e as [| | | | | | | |returncode output]; cbv beta iota;
      [reflexivity.. |].
    destruct (Py.decode output) as [text|e] eqn:E;
      [destruct (stdout_encodes ui _); cbn [fst snd];
       [rewrite <- app_assoc; reflexivity | reflexivity]
      |apply decode_raises in E as ->; reflexivity].
Qed.

(** The run of [interactive_exec], event by event. *)
Lemma interactive_exec_run (command : str) :
  let multiline := Py.contains LF command in
  let answer := ask ui (py "> ") command multiline in
  llm_cmd.interactive_exec ui command []
  = ((if multiline then [Printed (NOTICE ++ [LF])] else [])
     ++ Prompted (py "> ") command multiline answer
     :: match answer with
        | Ok edited_command =>
            Executed edited_command (run ui edited_command)
            :: (report (run ui edited_command)).1
        | Raise _ => []
        end,
     match answer with
     | Ok edited_command => (report (run ui edited_command)).2
     | Raise e => Raise e
     end).
Proof.
  cbn zeta.
  change (llm_cmd.interactive_exec ui command)
    with (edited_command ←
            (if Py.contains LF command then
               _ ← Sys.print ui NOTICE; Sys.prompt ui (py "> ") command true
             else Sys.prompt ui (py "> ") command false);
          execute edited_command).
  unfold Sys.print, Sys.prompt. rewrite notice_encodes. cbv [mbind IO_bind].
  destruct (Py.contains LF command); cbn [app];
    (destruct (ask ui _ command _) as [edited|e]; [|reflexivity]);
    by rewrite execute_run.
Qed.

(** C1. Every run of [interactive_exec] opens the editable prompt on the
    candidate command, and nothing is executed before it.  When the prompt
    returns a text, exactly that text is handed to the shell, right after
    the prompt, and nothing else is executed; when the prompt raises,
    nothing is executed.  So an execution event of the run is always the
    answer to the prompt, pre-filled with the candidate, that immediately
    precedes it. *)
Theorem interactive_exec_runs_confirmed_text
    (command : str) (trace : list event) (outcome : result unit) :
  llm_cmd.interactive_exec ui command [] = (trace, outcome) →
  let multiline := Py.contains LF command in
  let answer := ask ui (py "> ") command multiline in
  (∃ before after,
      trace = before ++ Prompted (py "> ") command multiline answer :: after
      ∧ Forall (λ ev, is_exec ev = false) before
      ∧ match answer with
        | Ok edited_command =>
            ∃ rest,
              after = Executed edited_command (run ui edited_command) :: rest
              ∧ Forall (λ ev, is_exec ev = false) rest
        | Raise e => after = [] ∧ outcome = Raise e
        end)
  ∧ (∀ cmd res,
       Executed cmd res ∈ trace →
       ∃ before after multiline,
         trace = before
                 ++ Prompted (py "> ") command multiline (Ok cmd)
                 :: Executed cmd res :: after
         ∧ ask ui (py "> ") command multiline = Ok cmd
         ∧ Forall (λ ev, is_exec ev = false) (before ++ after)).
Proof.
  rewrite interactive_exec_run. cbn zeta. intros [= <- <-].
  set (multiline := Py.contains LF command) in *.
  set (notice := if multiline then [Printed (NOTICE ++ [LF])] else []) in *.
  assert (Hnotice : Forall (λ ev, is_exec ev = false) notice).
  { subst notice. destruct multiline; repeat constructor. }
  split.
  - exists notice. eexists. split; [reflexivity|]. split; [done|].
    destruct (ask ui (py "> ") command multiline) as [edited|e]; [|done].
    eexists. split; [reflexivity | apply report_no_exec].
  - intros cmd res Hin.
    apply elem_of_app in Hin as [Hin|Hin].
    { by apply (proj1 (Forall_forall _ _) Hnotice) in Hin. }
    apply elem_of_cons in Hin as [Hin|Hin]; [discriminate|].
    destruct (ask ui (py "> ") command multiline) as [edited|e] eqn:Hask.
    2:{ by apply elem_of_nil in Hin. }
    apply elem_of_cons in Hin as [Hin|Hin].
    + injection Hin as -> ->.
      exists notice, (report (run ui edited)).1, multiline.
      split; [done|]. split; [done|].
      apply Forall_app. split; [done | apply report_no_exec].
    + by apply (proj1 (Forall_forall _ _) (report_no_exec _)) in Hin.
Qed.

(** When the confirmed command exits with a non-zero status, its output is
    valid UTF-8 and standard output can encode the failure message, the
    message with the exit status and the output is printed and
    [interactive_exec] returns normally. *)
Lemma interactive_exec_reports_failure
    (command edited : str) (returncode : Z) (output : bytes) (text : str) :
  ask ui (py "> ") command (Py.contains LF command) = Ok edited →
  run ui edited = Ok (returncode, output) →
  returncode ≠ 0%Z →
  Py.decode output = Ok text →
  stdout_encodes ui (failure_message returncode text) = true →
  ∃ before,
    llm_cmd.interactive_exec ui command []
    = (before
       ++ [Executed edited (Ok (returncode, output));
           Printed (failure_message returncode text ++ [LF])],
       Ok ()).
Proof.
  intros Hask Hrun Hrc Htext Hout. rewrite interactive_exec_run. cbn zeta.
  rewrite Hask, Hrun. cbn [report]. rewrite Htext.
  apply Z.eqb_neq in Hrc. rewrite Hrc. unfold printed. rewrite Hout.
  cbn [fst snd].
  exists ((if Py.contains LF command then [Printed (NOTICE ++ [LF])] else [])
          ++ [Prompted (py "> ") command (Py.contains LF command) (Ok edited)]).
  by rewrite <- app_assoc.
Qed.

End Executor.

(** ** Concrete processes, used to run the functions on examples *)

Definition demo_environ : gmap str str :=
  {[ py "USER" := py "alice"; py "PWD" := py "/tmp";
     py "HISTFILE" := py "/home/alice/.hist"; py "EDITOR" := [SP; TAB] ]}.

(** A process with the given environment whose history file holds the
    bytes [history]; no other file opens, and the locale's encoding is
    UTF-8. *)
Definition process_raw (env : gmap str str) (history : bytes) : OS := {|
  environ := env;
  expanduser := λ path, path;
  open_r := λ path,
    if decide (path = py "/home/alice/.hist") then Ok history
    else Raise (OSError 2);
  decode_text := λ b, Py.decode_utf8 (map Byte.to_N b);
|}.

(** ASCII text as the bytes of a file. *)
Definition encode_ascii (text : str) : bytes :=
  map (λ c, default Byte.x00 (Byte.of_N c)) text.

(** The same, for a history file that holds the ASCII text [history]. *)
Definition process (env : gmap str str) (history : str) : OS :=
  process_raw env (encode_ascii history).

Definition lines_of (lines : list str) : str :=
  concat (map (λ l, l ++ [LF]) lines).

Definition demo_os : OS :=
  process demo_environ (lines_of [py "a"; py "b"; py "c"; py "d"; py "e"]).

(** The same user in a fresh shell: the history file is empty. *)
Definition fresh_os : OS := process demo_environ [].

(** A history file that is not UTF-8: the line "caf\xe9" in Latin-1. *)
Definition garbled_os : OS :=
  process_raw demo_environ
    [Byte.x6c; Byte.x73; Byte.x0a;
     Byte.x63; Byte.x61; Byte.x66; Byte.xe9; Byte.x0a].

(** A history in which the user typed a comment. *)
Definition commented_os : OS :=
  process demo_environ (lines_of [py "ls"; py "# env"; py "pwd"]).

(** A user who rewrites the candidate before confirming, on a shell where
    every command succeeds silently. *)
Definition cautious_ui : Session := {|
  ask := λ _ default _, Ok (py "echo " ++ default);
  run := λ _, Ok (0%Z, []);
  stdout_encodes := λ _, true;
  stdout_ascii := λ _ _, eq_refl;
|}.

(** A user who confirms the candidate as it is; the command writes the byte
    0xFF and exits with status 1. *)
Definition binary_ui : Session := {|
  ask := λ _ default _, Ok default;
  run := λ _, Ok (1%Z, [Byte.xff]);
  stdout_encodes := λ _, true;
  stdout_ascii := λ _ _, eq_refl;
|}.

(** The same, with a command that writes "no" before it fails. *)
Definition failing_ui : Session := {|
  ask := λ _ default _, Ok default;
  run := λ _, Ok (1%Z, [Byte.x6e; Byte.x6f]);
  stdout_encodes := λ _, true;
  stdout_ascii := λ _ _, eq_refl;
|}.

Section Examples.

(** Scenario of the specification: allow-list SHELL, USER, HOME, PWD with
    only USER and PWD set. *)
Example env_var_context_demo :
  llm_cmd.env_var_context demo_os llm_cmd.ENV_VARS_CONTEXT
  = [py "USER=alice"; py "PWD=/tmp"].
Proof. vm_compute. reflexivity. Qed.

Lemma env_var_context_blank_value_witness :
  py "EDITOR=" ∈ llm_cmd.env_var_context demo_os [py "USER"; py "EDITOR"].
Proof.
  apply (env_var_context_blank_value demo_os _ (py "EDITOR") [SP; TAB]).
  - apply list_elem_of_In. vm_compute. auto.
  - vm_compute. reflexivity.
  - reflexivity.
Defined.


(** C4 as stated fails for an [n] that does not fit a C [ssize_t], which
    [deque] refuses, and for a history file whose bytes are not text in the
    locale's encoding, which cannot be read. *)
Lemma shell_history_context_counterexample :
  llm_cmd.shell_history_context demo_os (2 ^ 63) None = Raise OverflowError
  ∧ llm_cmd.shell_history_context garbled_os 3 None
    = Raise UnicodeDecodeError.
Proof. split; vm_compute; reflexivity. Qed.

Lemma history_open_error_propagates_witness :
  llm_cmd.shell_history_context demo_os 3 (Some (py "/nonexistent"))
  = Raise (OSError 2).
Proof.
  apply (history_open_error_propagates demo_os 3 (Some (py "/nonexistent"))).
  vm_compute. reflexivity.
Defined.

(** The prompt built for "list files" in the demo process. *)
Example generate_context_prompt_demo :
  llm_cmd.generate_context_prompt demo_os (py "list files")
  = Ok (Py.join [LF]
          [py "# env"; py "USER=alice"; py "PWD=/tmp";
           py "# history 3"; py "c"; py "d"; py "e";
           py "# now: list files"]).
Proof. vm_compute. reflexivity. Qed.

Lemma generate_context_prompt_layout_witness :
  llm_cmd.generate_context_prompt demo_os (py "list files")
  = Ok (spec_prompt [py "USER=alice"; py "PWD=/tmp"] 3
          [py "c"; py "d"; py "e"] (py "list files")).
Proof.
  destruct (generate_context_prompt_layout demo_os (py "list files")
              [py "c"; py "d"; py "e"]) as [_ Hspec].
  - vm_compute. reflexivity.
  - rewrite Hspec.
    + vm_compute. reflexivity.
    + vm_compute. discriminate.
    + discriminate.
Defined.

(** C3 as stated fails when a block is empty: with an empty history file
    the code leaves an empty line between "# history 3" and "# now: ...",
    where the layout of the specification has the two lines adjacent. *)
Lemma generate_context_prompt_empty_block_counterexample :
  llm_cmd.shell_history_context fresh_os llm_cmd.N_SHELL_HISTORY_LINES None
  = Ok []
  ∧ llm_cmd.generate_context_prompt fresh_os (py "list files")
    = Ok (Py.join [LF]
            [py "# env"; py "USER=alice"; py "PWD=/tmp";
             py "# history 3"; py ""; py "# now: list files"])
  ∧ spec_prompt (llm_cmd.env_var_context fresh_os llm_cmd.ENV_VARS_CONTEXT)
      llm_cmd.N_SHELL_HISTORY_LINES [] (py "list files")
    = Py.join [LF]
        [py "# env"; py "USER=alice"; py "PWD=/tmp";
         py "# history 3"; py "# now: list files"]
  ∧ llm_cmd.generate_context_prompt fresh_os (py "list files")
    ≠ Ok (spec_prompt
            (llm_cmd.env_var_context fresh_os llm_cmd.ENV_VARS_CONTEXT)
            llm_cmd.N_SHELL_HISTORY_LINES [] (py "list files")).
Proof.
  split; [vm_compute; reflexivity|].
  split; [vm_compute; reflexivity|].
  split; [vm_compute; reflexivity|].
  vm_compute. discriminate.
Qed.

(** With the history line "# env", the marker "# now:" still occurs exactly
    once. *)
Lemma generate_context_prompt_markers_witness :
  llm_cmd.generate_context_prompt demo_os (py "list files")
  = llm_cmd.generate_context_prompt
      (process (<[py "LANG" := py "C"]> demo_environ)
         (lines_of [py "z"; py "c"; py "d"; py "e"]))
      (py "list files")
  ∧ ∃ prompt,
      llm_cmd.generate_context_prompt commented_os (py "list files")
      = Ok prompt
      ∧ (1 ≤ occurrences (py "# env") prompt)%nat
      ∧ occurrences (py "# now:") prompt = 1%nat.
Proof.
  split.
  - apply (proj1 generate_context_prompt_markers); vm_compute; reflexivity.
  - destruct (proj2 generate_context_prompt_markers commented_os
                (py "list files") [py "ls"; py "# env"; py "pwd"])
      as (prompt & Hprompt & Hmarkers).
    + vm_compute. reflexivity.
    + exists prompt. split; [exact Hprompt|]. split.
      * apply (Hmarkers (py "# env")).
        apply list_elem_of_In. left. reflexivity.
      * apply (Hmarkers (py "# now:")).
        -- apply list_elem_of_In. right. right. left. reflexivity.
        -- vm_compute. repeat constructor.
        -- vm_compute. repeat constructor.
        -- vm_compute. reflexivity.
Defined.

(** C9 as stated fails when an input contains a marker: a history line
    "# env" makes that marker occur twice in the prompt. *)
Lemma generate_context_prompt_markers_counterexample :
  ∃ prompt,
    llm_cmd.generate_context_prompt commented_os (py "list files") = Ok prompt
    ∧ prompt = Py.join [LF]
                 [py "# env"; py "USER=alice"; py "PWD=/tmp";
                  py "# history 3"; py "ls"; py "# env"; py "pwd";
                  py "# now: list files"]
    ∧ occurrences (py "# env") prompt = 2%nat
    ∧ occurrences (py "# env") prompt ≠ 1%nat.
Proof.
  eexists. split; [vm_compute; reflexivity|].
  split; [vm_compute; reflexivity|].
  split; [vm_compute; reflexivity|]. vm_compute. discriminate.
Qed.

(** The run in which the cautious user turns "rm -rf /" into an echo. *)
Definition cautious_run : list event :=
  [Prompted (py "> ") (py "rm -rf /") false (Ok (py "echo rm -rf /"));
   Executed (py "echo rm -rf /") (Ok (0%Z, []));
   Printed [LF]].

Lemma interactive_exec_runs_confirmed_text_witness :
  (∃ before after,
      cautious_run
      = before
        ++ Prompted (py "> ") (py "rm -rf /") false (Ok (py "echo rm -rf /"))
        :: after
      ∧ Forall (λ ev, is_exec ev = false) before
      ∧ ∃ rest,
          after = Executed (py "echo rm -rf /") (Ok (0%Z, [])) :: rest
          ∧ Forall (λ ev, is_exec ev = false) rest)
  ∧ (∀ cmd res,
       Executed cmd res ∈ cautious_run →
       ∃ before after multiline,
         cautious_run
         = before
           ++ Prompted (py "> ") (py "rm -rf /") multiline (Ok cmd)
           :: Executed cmd res :: after
         ∧ ask cautious_ui (py "> ") (py "rm -rf /") multiline = Ok cmd
         ∧ Forall (λ ev, is_exec ev = false) (before ++ after)).
Proof.
  apply (interactive_exec_runs_confirmed_text cautious_ui (py "rm -rf /")
           cautious_run (Ok ())).
  vm_compute. reflexivity.
Defined.

(** Scenario of the specification: the confirmed command exits with
    status 1 after writing text; the failure is printed and the call
    returns. *)
Example interactive_exec_failure_demo :
  llm_cmd.interactive_exec failing_ui (py "echo -n no; exit 1") []
  = ([Prompted (py "> ") (py "echo -n no; exit 1") false
        (Ok (py "echo -n no; exit 1"));
      Executed (py "echo -n no; exit 1") (Ok (1%Z, [Byte.x6e; Byte.x6f]));
      Printed (py "Command failed with error (exit status 1): no" ++ [LF])],
     Ok ()).
Proof. vm_compute. reflexivity. Qed.

(** C6 fails on the code when the output of the failing command is not
    valid UTF-8: decoding it inside the [except] clause raises, no failure
    message is printed, and [interactive_exec] ends with
    [UnicodeDecodeError] instead of returning. *)
Theorem interactive_exec_undecodable_failure :
  llm_cmd.interactive_exec binary_ui (py "printf '\377'; exit 1") []
  = ([Prompted (py "> ") (py "printf '\377'; exit 1") false
        (Ok (py "printf '\377'; exit 1"));
      Executed (py "printf '\377'; exit 1") (Ok (1%Z, [Byte.xff]))],
     Raise UnicodeDecodeError).
Proof. vm_compute. reflexivity. Qed.

End Examples.

(** ** Further properties of the sanitizer *)

Section SanitizerMore.

(** X1. [clean_codeblock] never raises, and its result has no line boundary
    other than the newline: carriage returns, form feeds and the Unicode
    line separators of the input are gone. *)
Theorem clean_codeblock_newlines_only (text : str) :
  ∃ cleaned,
    llm_cmd.clean_codeblock text = Ok cleaned
    ∧ ∀ c, c ∈ cleaned → Py.is_linebreak c = true → c = LF.
Proof.
  eexists. split; [apply clean_codeblock_lines|].
  intros c. apply join_lines_breaks.
  destruct (fenced (Py.splitlines text)); [|apply splitlines_lines].
  apply Forall_inner, splitlines_lines.
Qed.

(** X2. A text of one line that does not start with a fence marker, and the
    empty text, come back unchanged. *)
Theorem clean_codeblock_plain_line (text : str) :
  is_line text = true →
  Py.startswith text FENCE = false →
  llm_cmd.clean_codeblock text = Ok text.
Proof.
  intros Hline Hplain. rewrite clean_codeblock_lines.
  destruct text as [|c text]; [reflexivity|].
  rewrite (splitlines_single _ Hline) by discriminate.
  unfold fenced. cbn [head last]. by rewrite Hplain.
Qed.

Lemma clean_codeblock_plain_line_witness :
  llm_cmd.clean_codeblock (py "git reset --soft HEAD~1")
  = Ok (py "git reset --soft HEAD~1").
Proof. apply clean_codeblock_plain_line; reflexivity. Defined.

(** X3. On a text without an enclosing fence pair whose last line is not empty,
    [clean_codeblock] is idempotent. *)
Theorem clean_codeblock_idempotent (text : str) :
  fenced (Py.splitlines text) = false →
  last (Py.splitlines text) ≠ Some [] →
  ∃ cleaned,
    llm_cmd.clean_codeblock text = Ok cleaned
    ∧ llm_cmd.clean_codeblock cleaned = Ok cleaned.
Proof.
  intros Hplain Hlast. eexists. split; [apply clean_codeblock_lines|].
  rewrite Hplain, clean_codeblock_lines.
  destruct (last (Py.splitlines text)) as [y|] eqn:Ey.
  - rewrite (splitlines_join _ y); [by rewrite Hplain | | done | congruence].
    apply splitlines_lines.
  - apply last_None in Ey. rewrite Ey. reflexivity.
Qed.

Lemma clean_codeblock_idempotent_witness :
  ∃ cleaned,
    llm_cmd.clean_codeblock (py "ls" ++ [CR; LF] ++ py "pwd" ++ [LF])
    = Ok cleaned
    ∧ llm_cmd.clean_codeblock cleaned = Ok cleaned.
Proof.
  apply clean_codeblock_idempotent; [reflexivity | vm_compute; congruence].
Defined.

(** Without the condition on the last line idempotence fails: the text
    "a\n\n" is cleaned to "a\n", and that to "a". *)
Example clean_codeblock_not_idempotent :
  llm_cmd.clean_codeblock (py "a" ++ [LF; LF]) = Ok (py "a" ++ [LF])
  ∧ llm_cmd.clean_codeblock (py "a" ++ [LF]) = Ok (py "a").
Proof. split; reflexivity. Qed.






End SanitizerMore.

(** ** Further properties of the context collector *)

Section EnvContextMore.

Variable os : OS.

(** X5. The entries for a concatenation of name lists are the entries for the
    first list followed by those for the second; in particular a name
    listed twice is reported twice. *)
Theorem env_var_context_app (names1 names2 : list str) :
  llm_cmd.env_var_context os (names1 ++ names2)
  = llm_cmd.env_var_context os names1 ++ llm_cmd.env_var_context os names2.
Proof. rewrite !env_var_context_omap. apply omap_app. Qed.

(** X6. There are at most as many entries as names, and there is none exactly
    when no listed name is set. *)
Theorem env_var_context_size (names : list str) :
  (length (llm_cmd.env_var_context os names) ≤ length names)%nat
  ∧ (llm_cmd.env_var_context os names = []
     ↔ Forall (λ var, environ os !! var = None) names).
Proof.
  rewrite env_var_context_omap.
  induction names as [|var names [IHlen IHnil]]; [by split|].
  cbn [omap list_omap length].
  destruct (environ os !! var) as [value|] eqn:E;
    cbn [fmap option_fmap option_map length].
  - split; [lia|]. split; [discriminate|].
    intros H. inversion H; congruence.
  - split; [lia|]. rewrite IHnil. split.
    + by constructor.
    + by inversion 1.
Qed.

End EnvContextMore.

Section HistoryMore.

Variable os : OS.

(** X7. Once the history file has been opened, an [n] that does not fit a
    C [ssize_t] is refused with [OverflowError], and a negative [n] that
    fits with [ValueError]; the file's contents are not looked at. *)
Theorem shell_history_context_refused
    (n : Z) (history_file : option str) (raw : bytes) :
  open_r os (history_path os history_file) = Ok raw →
  ((n < - Py.SSIZE_MAX - 1)%Z ∨ (Py.SSIZE_MAX < n)%Z →
   llm_cmd.shell_history_context os n history_file = Raise OverflowError)
  ∧ ((- Py.SSIZE_MAX - 1 ≤ n < 0)%Z →
     llm_cmd.shell_history_context os n history_file
     = Raise (ValueError "maxlen must be non-negative")).
Proof.
  intros Hopen. rewrite shell_history_context_tail.
  unfold llm_cmd.tail. rewrite Hopen. cbn [mbind result_bind].
  destruct (deque_refused (Sys.iter_text os raw) n) as [Hover Hneg].
  split; intros Hn.
  - by rewrite (Hover Hn).
  - by rewrite (Hneg Hn).
Qed.



End HistoryMore.

Section StripFacts.

(** No whitespace at either end. *)
Definition stripped (s : str) : bool :=
  match head s, last s with
  | Some a, Some b => negb (Py.isspace a) && negb (Py.isspace b)
  | _, _ => true
  end.

Lemma lstrip_suffix (s : str) : ∃ t, s = t ++ Py.lstrip s.
Proof.
  induction s as [|c s [t IH]]; [by exists []|]. cbn [Py.lstrip].
  destruct (Py.isspace c); [|by exists []].
  exists (c :: t). cbn [app]. by f_equal.
Qed.

Lemma lstrip_head (s : str) (a : N) :
  head (Py.lstrip s) = Some a → Py.isspace a = false.
Proof.
  induction s as [|c s IH]; [done|]. cbn [Py.lstrip].
  destruct (Py.isspace c) eqn:Hc; [done|]. cbn. congruence.
Qed.

Lemma lstrip_last (s : str) :
  Py.lstrip s ≠ [] → last (Py.lstrip s) = last s.
Proof.
  induction s as [|c s IH]; [done|]. cbn [Py.lstrip].
  destruct (Py.isspace c); [|done].
  intros Hne. rewrite (IH Hne), last_cons.
  destruct (last s) eqn:E; [done|].
  apply last_None in E. subst s. by destruct Hne.
Qed.

Lemma rstrip_last (s : str) (b : N) :
  last (Py.rstrip s) = Some b → Py.isspace b = false.
Proof.
  induction s as [|c s IH]; [done|]. cbn [Py.rstrip].
  destruct (Py.rstrip s) as [|c' r] eqn:E.
  - destruct (Py.isspace c) eqn:Hc; [done|]. cbn. congruence.
  - rewrite last_cons. destruct (last (c' :: r)) eqn:El;
      [|by apply last_None in El].
    intros [= <-]. by apply IH.
Qed.

Lemma strip_stripped (s : str) : stripped (Py.strip s) = true.
Proof.
  unfold stripped, Py.strip.
  destruct (head (Py.lstrip (Py.rstrip s))) as [a|] eqn:Ha; [|done].
  destruct (last (Py.lstrip (Py.rstrip s))) as [b|] eqn:Hb; [|done].
  rewrite (lstrip_head _ _ Ha).
  rewrite lstrip_last in Hb by (intros E; by rewrite E in Ha).
  by rewrite (rstrip_last _ _ Hb).
Qed.

Lemma rstrip_snoc_space (s : str) (c : N) :
  Py.isspace c = true → Py.rstrip (s ++ [c]) = Py.rstrip s.
Proof.
  intros Hc. induction s as [|x s IH]; cbn [app Py.rstrip].
  - by rewrite Hc.
  - by rewrite IH.
Qed.

Lemma strip_chars (P : N → Prop) (s : str) :
  Forall P s → Forall P (Py.strip s).
Proof.
  intros Hs. unfold Py.strip.
  destruct (rstrip_prefix s) as [t Ht].
  destruct (lstrip_suffix (Py.rstrip s)) as [u Hu].
  rewrite Ht, Hu in Hs.
  by apply Forall_app in Hs as [[_ ?]%Forall_app _].
Qed.

End StripFacts.

Section HistoryLines.

Variable os : OS.

Lemma universal_newlines_no_cr_bounded (n : nat) (s : str) :
  (length s ≤ n)%nat → Forall (λ c, c ≠ CR) (Py.universal_newlines s).
Proof.
  revert s. induction n as [|n IH]; intros s Hn.
  - destruct s; [constructor | cbn in Hn; lia].
  - destruct s as [|c rest]; [constructor|]. cbn [length] in Hn.
    cbn [Py.universal_newlines].
    destruct (N.eqb_spec c CR) as [->|Hc].
    + constructor; [done|].
      destruct rest as [|c' rest']; [constructor|].
      destruct (c' =? LF); apply IH; cbn [length] in *; lia.
    + constructor; [done|]. apply IH. lia.
Qed.

(** A line read from a file: a body without "\n", then possibly "\n". *)
Lemma keepends_lines (P : N → Prop) (s : str) :
  Forall P s →
  Forall (λ l, ∃ body, (l = body ++ [LF] ∨ l = body)
                       ∧ Forall (λ c, c ≠ LF ∧ P c) body)
    (Py.keepends s).
Proof.
  induction 1 as [|c s Hc Hs IH]; [constructor|]. cbn [Py.keepends].
  destruct (N.eqb_spec c LF) as [->|Hne].
  - constructor; [|done]. exists []. split; [by left | constructor].
  - destruct (Py.keepends s) as [|l ls].
    + repeat constructor. exists [c]. split; [by right | by repeat constructor].
    + inversion IH as [|? ? (body & Hl & Hbody) Hls]; subst.
      constructor; [|done]. exists (c :: body). split.
      * destruct Hl as [->| ->]; [by left | by right].
      * by repeat constructor.
Qed.

(** X9. Every history line that [shell_history_context] returns has no
    whitespace at either end and contains neither "\n" nor "\r". *)
Theorem shell_history_context_lines
    (n : Z) (history_file : option str) (history : list str) :
  llm_cmd.shell_history_context os n history_file = Ok history →
  Forall (λ l, stripped l = true ∧ (LF ∉ l) ∧ (CR ∉ l)) history.
Proof.
  rewrite shell_history_context_tail.
  unfold llm_cmd.tail, Py.deque, Sys.iter_text.
  destruct (open_r os _) as [raw|]; [|discriminate].
  cbn [mbind result_bind].
  destruct (_ || _); [discriminate|].
  destruct (Z.ltb_spec n 0); [discriminate|].
  destruct (decode_text os raw) as [contents|]; [|discriminate].
  cbn [mbind mret result_bind result_ret fmap result_fmap]. intros [= <-].
  rewrite deque_fill by (cbn; lia). unfold lastn.
  apply Forall_fmap, Forall_drop.
  eapply Forall_impl.
  { apply (keepends_lines (λ c, c ≠ CR)).
    apply (universal_newlines_no_cr_bounded (length contents)). lia. }
  intros l (body & Hl & Hbody). cbn.
  split; [apply strip_stripped|].
  assert (Hstrip : Py.strip l = Py.strip body).
  { destruct Hl as [->| ->]; [|done].
    unfold Py.strip. by rewrite rstrip_snoc_space. }
  rewrite Hstrip.
  apply (strip_chars _ _) in Hbody.
  split; intros Hin; apply (proj1 (Forall_forall _ _) Hbody) in Hin;
    by destruct Hin.
Qed.

End HistoryLines.

(** ** Further properties of the prompt builder *)

Section PromptMore.


Lemma rstrip_app_blank (a ws : str) :
  forallb Py.isspace ws = true → Py.rstrip (a ++ ws) = Py.rstrip a.
Proof.
  intros Hws. induction a as [|c a IH]; cbn [app].
  - by apply rstrip_blank.
  - cbn [Py.rstrip]. by rewrite IH.
Qed.

(** X11. Whitespace at the end of the instruction does not reach the prompt;
    for an empty or blank instruction the prompt ends with "# now:". *)
Theorem generate_context_prompt_trailing_blank
    (os : OS) (user_prompt blank : str) :
  forallb Py.isspace blank = true →
  llm_cmd.generate_context_prompt os (user_prompt ++ blank)
  = llm_cmd.generate_context_prompt os user_prompt
  ∧ (∀ history,
       llm_cmd.shell_history_context os llm_cmd.N_SHELL_HISTORY_LINES None
       = Ok history →
       llm_cmd.generate_context_prompt os blank
       = Ok (Py.join [LF]
               ([py "# env"]
                ++ body (llm_cmd.env_var_context os llm_cmd.ENV_VARS_CONTEXT)
                ++ [py "# history 3"] ++ body history ++ [py "# now:"]))).
Proof.
  intros Hblank. rewrite !generate_context_prompt_template. split.
  - destruct (llm_cmd.shell_history_context _ _ _) as [history|]; [|done].
    cbn [fmap result_fmap]. rewrite !strip_template.
    change (SP :: user_prompt ++ blank) with ((SP :: user_prompt) ++ blank).
    by rewrite rstrip_app_blank.
  - intros history ->. cbn [fmap result_fmap]. rewrite strip_template.
    change (SP :: blank) with ([SP] ++ blank).
    rewrite rstrip_app_blank by done.
    change (Py.rstrip [SP]) with (@nil N). rewrite app_nil_r.
    set (env := llm_cmd.env_var_context os llm_cmd.ENV_VARS_CONTEXT) in *.
    f_equal.
    rewrite (join_app _ [py "# env"]) by (try done; by destruct (body env)).
    rewrite (join_app _ (body env))
      by (apply body_nonempty || by destruct (body history)).
    rewrite (join_app _ [py "# history 3"])
      by (try done; by destruct (body history)).
    rewrite (join_app _ (body history)) by (apply body_nonempty || done).
    rewrite !join_body. cbn [Py.join]. norm_app. reflexivity.
Qed.

Lemma rstrip_idempotent (s : str) : Py.rstrip (Py.rstrip s) = Py.rstrip s.
Proof.
  induction s as [|c s IH]; [done|]. cbn [Py.rstrip].
  destruct (Py.rstrip s) as [|c' r] eqn:E.
  - destruct (Py.isspace c) eqn:Hc; [done|]. cbn [Py.rstrip]. by rewrite Hc.
  - change (Py.rstrip (c :: c' :: r))
      with (match Py.rstrip (c' :: r) with
            | [] => if Py.isspace c then [] else [c]
            | r' => c :: r'
            end).
    by rewrite IH.
Qed.

(** X12. Whenever the history file can be read a prompt is produced; it begins
    with the line "# env" and has no whitespace (so no newline) at either
    end. *)
Theorem generate_context_prompt_shape
    (os : OS) (user_prompt : str) (history : list str) :
  llm_cmd.shell_history_context os llm_cmd.N_SHELL_HISTORY_LINES None
  = Ok history →
  ∃ prompt,
    llm_cmd.generate_context_prompt os user_prompt = Ok prompt
    ∧ Py.startswith prompt (py "# env" ++ [LF]) = true
    ∧ Py.strip prompt = prompt.
Proof.
  intros Hhist. eexists. rewrite generate_context_prompt_template, Hhist.
  split; [reflexivity|]. rewrite strip_template. split; [reflexivity|].
  set (env := llm_cmd.env_var_context os llm_cmd.ENV_VARS_CONTEXT).
  unfold Py.strip.
  assert (py "# env" ++ LF :: Py.join [LF] env ++ LF :: HISTORY_HEADER
          ++ LF :: Py.join [LF] history ++ LF :: py "# now:"
          ++ Py.rstrip (SP :: user_prompt)
          = (py "# env" ++ LF :: Py.join [LF] env ++ LF :: HISTORY_HEADER
             ++ LF :: Py.join [LF] history ++ LF :: py "# now")
            ++ 58 :: Py.rstrip (SP :: user_prompt)) as ->.
  { norm_app. reflexivity. }
  rewrite rstrip_app_cons by reflexivity. rewrite rstrip_idempotent.
  reflexivity.
Qed.

End PromptMore.

(** ** Further properties of the interactive executor *)

Section ExecutorMore.

Variable ui : Session.

(** The events of the confirmation step: the notice for a multi-line
    candidate, then the prompt. *)
Definition confirmation (command : str) : list event :=
  (if Py.contains LF command then [Printed (NOTICE ++ [LF])] else [])
  ++ [Prompted (py "> ") command (Py.contains LF command)
        (ask ui (py "> ") command (Py.contains LF command))].

Lemma interactive_exec_confirmation (command : str) :
  llm_cmd.interactive_exec ui command []
  = (confirmation command
     ++ match ask ui (py "> ") command (Py.contains LF command) with
        | Ok edited_command =>
            Executed edited_command (run ui edited_command)
            :: (report ui (run ui edited_command)).1
        | Raise _ => []
        end,
     match ask ui (py "> ") command (Py.contains LF command) with
     | Ok edited_command => (report ui (run ui edited_command)).2
     | Raise e => Raise e
     end).
Proof.
  rewrite interactive_exec_run. cbn zeta. unfold confirmation.
  by rewrite <- app_assoc.
Qed.

(** X13. When the user aborts the edit, the exception of the prompt ends
    [interactive_exec]: nothing is executed and nothing more is printed. *)
Theorem interactive_exec_abort (command : str) (e : exn) :
  ask ui (py "> ") command (Py.contains LF command) = Raise e →
  llm_cmd.interactive_exec ui command [] = (confirmation command, Raise e)
  ∧ Forall (λ ev, is_exec ev = false) (confirmation command).
Proof.
  intros Hask. rewrite interactive_exec_confirmation, Hask, app_nil_r.
  split; [done|]. unfold confirmation.
  destruct (Py.contains LF command); repeat constructor.
Qed.



(** X16. Output that is not valid UTF-8 ends [interactive_exec] with
    [UnicodeDecodeError], whatever the exit status: nothing is printed
    after the command has run. *)
Theorem interactive_exec_undecodable
    (command edited : str) (returncode : Z) (output : bytes) :
  ask ui (py "> ") command (Py.contains LF command) = Ok edited →
  run ui edited = Ok (returncode, output) →
  Py.decode_utf8 (map Byte.to_N output) = None →
  llm_cmd.interactive_exec ui command []
  = (confirmation command ++ [Executed edited (Ok (returncode, output))],
     Raise UnicodeDecodeError).
Proof.
  intros Hask Hrun Hbad.
  rewrite interactive_exec_confirmation, Hask, Hrun. cbn [report].
  unfold Py.decode. by rewrite Hbad.
Qed.

(** X17. A failure to launch the command (any exception of [check_output] other
    than [CalledProcessError]) is not caught. *)
Theorem interactive_exec_launch_failure (command edited : str) (e : exn) :
  ask ui (py "> ") command (Py.contains LF command) = Ok edited →
  run ui edited = Raise e →
  (∀ returncode output, e ≠ CalledProcessError returncode output) →
  llm_cmd.interactive_exec ui command []
  = (confirmation command ++ [Executed edited (Raise e)], Raise e).
Proof.
  intros Hask Hrun He.
  rewrite interactive_exec_confirmation, Hask, Hrun.
  destruct e as [| | | | | | | |returncode output]; [reflexivity.. |].
  by destruct (He returncode output).
Qed.

End ExecutorMore.

(** ** The command: from the arguments to the execution *)

Section Command.

Variables (os : OS) (llm : LLM) (ui : Session).

(** The system prompt that goes with the request. *)
Definition system_prompt (system : option str) : str :=
  match Py.truthy_value system with
  | Some system => system
  | None => llm_cmd.SYSTEM_PROMPT
  end.

(** X18. When the history file cannot be opened, [cmd] ends with that error
    before anything else happens: whatever the model registry, the options
    and the user, no prompt is shown and nothing is executed. *)
Theorem cmd_history_unreadable
    (args : list str) (model system key : option str) (e : exn) :
  open_r os (history_path os None) = Raise e →
  llm_cmd.cmd os llm ui args model system key [] = ([], Raise e).
Proof.
  intros Hopen. unfold llm_cmd.cmd, llm_cmd.generate_context_prompt.
  rewrite shell_history_context_tail. unfold llm_cmd.tail.
  by rewrite Hopen.
Qed.

(** The ways a run of [cmd] can go. *)
Lemma cmd_cases
    (args : list str) (model system key : option str)
    (trace : list event) (outcome : result unit) :
  llm_cmd.cmd os llm ui args model system key [] = (trace, outcome) →
  (trace = [] ∧ ∃ e, outcome = Raise e)
  ∨ (∃ prompt model_obj reply candidate,
       llm_cmd.generate_context_prompt os (Py.join [SP] args) = Ok prompt
       ∧ prompt_text llm model_obj prompt (system_prompt system) = Ok reply
       ∧ llm_cmd.clean_codeblock reply = Ok candidate
       ∧ llm_cmd.interactive_exec ui candidate [] = (trace, outcome)).
Proof.
  unfold llm_cmd.cmd, system_prompt. cbv [mbind IO_bind Sys.lift mret IO_ret].
  destruct (llm_cmd.generate_context_prompt os _) as [prompt|e];
    [|intros [= <- <-]; left; eauto].
  destruct (match Py.truthy_value model with
            | Some model_id => Ok model_id
            | None => get_default_model llm
            end) as [model_id|e]; [|intros [= <- <-]; left; eauto].
  destruct (get_model llm model_id) as [model_obj|e];
    [|intros [= <- <-]; left; eauto].
  destruct (Py.truthy_value (needs_key model_obj)) as [alias|].
  - destruct (get_key llm key alias (key_env_var model_obj)) as [k|e];
      [|intros [= <- <-]; left; eauto].
    destruct (prompt_text llm _ prompt _) as [reply|e] eqn:Hreply;
      [|intros [= <- <-]; left; eauto].
    destruct (llm_cmd.clean_codeblock reply) as [candidate|e] eqn:Hclean;
      [|intros [= <- <-]; left; eauto].
    intros Hrun. right. eauto 10.
  - destruct (prompt_text llm _ prompt _) as [reply|e] eqn:Hreply;
      [|intros [= <- <-]; left; eauto].
    destruct (llm_cmd.clean_codeblock reply) as [candidate|e] eqn:Hclean;
      [|intros [= <- <-]; left; eauto].
    intros Hrun. right. eauto 10.
Qed.

(** X19. A run of [cmd] either ends with an exception before any interaction,
    or it is a run of [interactive_exec] on the candidate that
    [clean_codeblock] makes of the model's reply to the context prompt
    built from the arguments joined by spaces. *)
Theorem cmd_pipeline
    (args : list str) (model system key : option str)
    (trace : list event) (outcome : result unit) :
  llm_cmd.cmd os llm ui args model system key [] = (trace, outcome) →
  (trace = [] ∧ ∃ e, outcome = Raise e)
  ∨ (∃ prompt model_obj reply candidate,
       llm_cmd.generate_context_prompt os (Py.join [SP] args) = Ok prompt
       ∧ prompt_text llm model_obj prompt (system_prompt system) = Ok reply
       ∧ llm_cmd.clean_codeblock reply = Ok candidate
       ∧ llm_cmd.interactive_exec ui candidate [] = (trace, outcome)).
Proof. apply cmd_cases. Qed.

(** X20. End to end: in every run of [cmd], a command handed to the shell is
    the user's answer to the prompt that immediately precedes it, and no
    other command is executed. *)
Theorem cmd_runs_confirmed_text
    (args : list str) (model system key : option str)
    (trace : list event) (outcome : result unit) :
  llm_cmd.cmd os llm ui args model system key [] = (trace, outcome) →
  ∀ command res,
    Executed command res ∈ trace →
    ∃ before after candidate multiline,
      trace = before
              ++ Prompted (py "> ") candidate multiline (Ok command)
              :: Executed command res :: after
      ∧ ask ui (py "> ") candidate multiline = Ok command
      ∧ Forall (λ ev, is_exec ev = false) (before ++ after).
Proof.
  intros Hcmd command res Hin.
  destruct (cmd_cases _ _ _ _ _ _ Hcmd)
    as [[-> _]|(prompt & model_obj & reply & candidate & _ & _ & _ & Hrun)].
  { by apply elem_of_nil in Hin. }
  rewrite interactive_exec_run in Hrun. cbn zeta in Hrun.
  injection Hrun as <- _.
  set (multiline := Py.contains LF candidate) in *.
  set (notice := if multiline then [Printed (NOTICE ++ [LF])] else []) in *.
  assert (Hnotice : Forall (λ ev, is_exec ev = false) notice).
  { subst notice. destruct multiline; repeat constructor. }
  apply elem_of_app in Hin as [Hin|Hin].
  { by apply (proj1 (Forall_forall _ _) Hnotice) in Hin. }
  apply elem_of_cons in Hin as [Hin|Hin]; [discriminate|].
  destruct (ask ui (py "> ") candidate multiline) as [edited|e] eqn:Hask.
  2:{ by apply elem_of_nil in Hin. }
  apply elem_of_cons in Hin as [Hin|Hin].
  - injection Hin as -> ->.
    exists notice, (report ui (run ui edited)).1, candidate, multiline.
    split; [done|]. split; [done|].
    apply Forall_app. split; [done | apply report_no_exec].
  - by apply (proj1 (Forall_forall _ _) (report_no_exec _ _)) in Hin.
Qed.


End Command.

(** ** Further concrete processes, users and models *)

(** A process without environment variables: the history file is the
    default one, which does not exist. *)
Definition bare_os : OS := process ∅ [].

(** A user who aborts the edit. *)
Definition aborting_ui : Session := {|
  ask := λ _ _ _, Raise KeyboardInterrupt;
  run := λ _, Ok (0%Z, []);
  stdout_encodes := λ _, true;
  stdout_ascii := λ _ _, eq_refl;
|}.

(** A machine on which the shell cannot be launched. *)
Definition shellless_ui : Session := {|
  ask := λ _ default _, Ok default;
  run := λ _, Raise (OSError 2);
  stdout_encodes := λ _, true;
  stdout_ascii := λ _ _, eq_refl;
|}.

(** A model that needs a key and wraps its reply in a fenced block. *)
Definition demo_llm : LLM := {|
  get_default_model := Ok (py "demo");
  get_model := λ _,
    Ok {| needs_key := Some (py "demo");
          key_env_var := Some (py "DEMO_API_KEY");
          key := None |};
  get_key := λ explicit _ _, Ok explicit;
  prompt_text := λ _ _ _,
    Ok (Py.join [LF] [py "```bash"; py "ls -la"; py "```"]);
|}.


Section MoreExamples.

Lemma shell_history_context_refused_witness :
  llm_cmd.shell_history_context demo_os (2 ^ 63) None = Raise OverflowError
  ∧ llm_cmd.shell_history_context demo_os (-1) None
    = Raise (ValueError "maxlen must be non-negative").
Proof.
  split.
  - apply (shell_history_context_refused demo_os (2 ^ 63)%Z None
             (encode_ascii (lines_of [py "a"; py "b"; py "c"; py "d"; py "e"]))).
    + vm_compute. reflexivity.
    + right. unfold Py.SSIZE_MAX. lia.
  - apply (shell_history_context_refused demo_os (-1)%Z None
             (encode_ascii (lines_of [py "a"; py "b"; py "c"; py "d"; py "e"]))).
    + vm_compute. reflexivity.
    + unfold Py.SSIZE_MAX. lia.
Defined.


Lemma shell_history_context_lines_witness :
  Forall (λ l, stripped l = true ∧ (LF ∉ l) ∧ (CR ∉ l))
    [py "c"; py "d"; py "e"].
Proof.
  apply (shell_history_context_lines demo_os 3 None).
  vm_compute. reflexivity.
Defined.


Lemma generate_context_prompt_trailing_blank_witness :
  llm_cmd.generate_context_prompt demo_os (py "list files" ++ [SP; LF])
  = llm_cmd.generate_context_prompt demo_os (py "list files").
Proof. apply generate_context_prompt_trailing_blank. reflexivity. Defined.

Lemma generate_context_prompt_shape_witness :
  ∃ prompt,
    llm_cmd.generate_context_prompt demo_os (py "list files") = Ok prompt
    ∧ Py.startswith prompt (py "# env" ++ [LF]) = true
    ∧ Py.strip prompt = prompt.
Proof.
  apply (generate_context_prompt_shape demo_os _ [py "c"; py "d"; py "e"]).
  vm_compute. reflexivity.
Defined.

Lemma interactive_exec_abort_witness :
  llm_cmd.interactive_exec aborting_ui (py "ls") []
  = (confirmation aborting_ui (py "ls"), Raise KeyboardInterrupt).
Proof. apply interactive_exec_abort. reflexivity. Defined.


(** A terminal whose encoding is ASCII, on which the command writes "é":
    the output decodes, cannot be printed, and the run ends with
    [UnicodeEncodeError] although the command succeeded. *)
Definition ascii_ui : Session := {|
  ask := λ _ default _, Ok default;
  run := λ _, Ok (0%Z, [Byte.xc3; Byte.xa9]);
  stdout_encodes := forallb (λ c, c <? 128);
  stdout_ascii := λ _ H, H;
|}.

Example interactive_exec_unprintable :
  llm_cmd.interactive_exec ascii_ui (py "cat menu") []
  = ([Prompted (py "> ") (py "cat menu") false (Ok (py "cat menu"));
      Executed (py "cat menu") (Ok (0%Z, [Byte.xc3; Byte.xa9]))],
     Raise UnicodeEncodeError).
Proof. vm_compute. reflexivity. Qed.

Lemma interactive_exec_undecodable_witness :
  llm_cmd.interactive_exec binary_ui (py "cat /bin/ls; false") []
  = (confirmation binary_ui (py "cat /bin/ls; false")
     ++ [Executed (py "cat /bin/ls; false") (Ok (1%Z, [Byte.xff]))],
     Raise UnicodeDecodeError).
Proof. apply interactive_exec_undecodable; reflexivity. Defined.

Lemma interactive_exec_launch_failure_witness :
  llm_cmd.interactive_exec shellless_ui (py "ls") []
  = (confirmation shellless_ui (py "ls")
     ++ [Executed (py "ls") (Raise (OSError 2))],
     Raise (OSError 2)).
Proof.
  apply interactive_exec_launch_failure; [reflexivity | reflexivity |].
  discriminate.
Defined.

Lemma cmd_history_unreadable_witness :
  llm_cmd.cmd bare_os demo_llm cautious_ui [py "list"; py "files"]
    None None None []
  = ([], Raise (OSError 2)).
Proof. apply cmd_history_unreadable. vm_compute. reflexivity. Defined.

(** The run of [cmd] for "list files" with the demo model and the cautious
    user. *)
Definition demo_run : list event :=
  [Prompted (py "> ") (py "ls -la") false (Ok (py "echo ls -la"));
   Executed (py "echo ls -la") (Ok (0%Z, []));
   Printed [LF]].

Lemma cmd_pipeline_witness :
  (demo_run = [] ∧ ∃ e, Ok () = Raise e)
  ∨ (∃ prompt model_obj reply candidate,
       llm_cmd.generate_context_prompt demo_os
         (Py.join [SP] [py "list"; py "files"]) = Ok prompt
       ∧ prompt_text demo_llm model_obj prompt (system_prompt None) = Ok reply
       ∧ llm_cmd.clean_codeblock reply = Ok candidate
       ∧ llm_cmd.interactive_exec cautious_ui candidate []
         = (demo_run, Ok ())).
Proof.
  apply (cmd_pipeline demo_os demo_llm cautious_ui [py "list"; py "files"]
           None None None).
  vm_compute. reflexivity.
Defined.

Lemma cmd_runs_confirmed_text_witness :
  ∃ before after candidate multiline,
    demo_run
    = before
      ++ Prompted (py "> ") candidate multiline (Ok (py "echo ls -la"))
      :: Executed (py "echo ls -la") (Ok (0%Z, [])) :: after
    ∧ ask cautious_ui (py "> ") candidate multiline = Ok (py "echo ls -la")
    ∧ Forall (λ ev, is_exec ev = false) (before ++ after).
Proof.
  apply (cmd_runs_confirmed_text demo_os demo_llm cautious_ui
           [py "list"; py "files"] None None None demo_run (Ok ())).
  - vm_compute. reflexivity.
  - apply list_elem_of_In. right. left. reflexivity.
Defined.


End MoreExamples.
